(** * Solar-eclipse estimator of PKAR_2025

    A shallow embedding of [src/Solar_eclipse/Solar_eclipse.py] (functions
    [eclipse] and [decimal], the sampling globals [minutes] and [times],
    the batch loop) and of [src/Solar_eclipse/Skript_eclipse.py] (function
    [estimate_eclipse] and the loop over the frame).

    Numbers.  Python [float] values are idealised as real numbers: every
    statement below is about the arithmetic the code writes down, read over
    [R], not about binary64 rounding.  Comparisons are the total order of
    [R]; there is no NaN and no infinity, so an operation that would produce
    one in Python is modelled by the exception it leads to.

    Effects.  The only effect of the functions modelled here is raising an
    exception, so they live in a small error monad [Py.result]. *)

From Stdlib Require Import Ascii String.
From Stdlib Require Import Reals Lra Lia List ZArith Bool.
Import ListNotations.
Local Open Scope R_scope.

(** ** Python runtime *)

Module Py.

(** The built-in exceptions the modelled code can raise. *)
Inductive exn : Type :=
| ValueError
| ZeroDivisionError
| IndexError.

Inductive result (A : Type) : Type :=
| Ok (a : A)
| Raise (e : exn).
Arguments Ok {A} a.
Arguments Raise {A} e.

Definition bind {A B : Type} (c : result A) (k : A -> result B) : result B :=
  match c with
  | Ok a => k a
  | Raise e => Raise e
  end.

(** [a / b] on Python floats. *)
Definition truediv (a b : R) : result R :=
  if Req_dec_T b 0 then Raise ZeroDivisionError else Ok (a / b).

(** [math.asin]: a domain error outside [-1, 1]. *)
Definition asin (x : R) : result R :=
  if Rlt_dec x (-1) then Raise ValueError
  else if Rlt_dec 1 x then Raise ValueError
  else Ok (Ratan.asin x).

(** [seq[i]] for a non-negative index. *)
Definition getitem {A : Type} (l : list A) (i : nat) : result A :=
  match nth_error l i with
  | Some a => Ok a
  | None => Raise IndexError
  end.

(** Rounding to the nearest integer, ties to the even one: what [round]
    does to the scaled value. *)
Definition round_half_even (y : R) : Z :=
  let f := Int_part y in
  let r := frac_part y in
  if Rlt_dec r (1 / 2) then f
  else if Rlt_dec (1 / 2) r then (f + 1)%Z
  else if Z.even f then f else (f + 1)%Z.

(** [round(x, ndigits)]. *)
Definition round (x : R) (ndigits : nat) : R :=
  IZR (round_half_even (x * 10 ^ ndigits)) / 10 ^ ndigits.

(** *** [int(s)] on text

    Cells are taken to be ASCII text, on which [len] is the number of
    characters.  [int] strips white space at both ends, reads an optional
    sign and then decimal digits, between which single underscores may
    stand; anything else is a [ValueError]. *)

Definition is_space (c : ascii) : bool :=
  let n := nat_of_ascii c in
  ((9 <=? n) && (n <=? 13) || (28 <=? n) && (n <=? 32))%nat.

Definition is_digit (c : ascii) : bool :=
  let n := nat_of_ascii c in ((48 <=? n) && (n <=? 57))%nat.

Definition digit_value (c : ascii) : Z := Z.of_nat (nat_of_ascii c - 48).

Fixpoint lstrip (s : list ascii) : list ascii :=
  match s with
  | c :: s' => if is_space c then lstrip s' else s
  | [] => []
  end.

Definition strip (s : list ascii) : list ascii :=
  rev (lstrip (rev (lstrip s))).

(** The digits after the sign: [acc] is the value read so far,
    [after_digit] tells whether the previous character was a digit. *)
Fixpoint read_digits (acc : Z) (after_digit : bool) (s : list ascii) : option Z :=
  match s with
  | [] => if after_digit then Some acc else None
  | c :: s' =>
      if is_digit c then read_digits (10 * acc + digit_value c) true s'
      else if Ascii.eqb c "_" && after_digit then read_digits acc false s'
      else None
  end.

(** The text consists of ASCII digits only. *)
Definition all_digits (s : string) : bool :=
  forallb is_digit (list_ascii_of_string s).

Definition int (s : string) : result Z :=
  let signed :=
    match strip (list_ascii_of_string s) with
    | "-"%char :: digits => option_map Z.opp (read_digits 0 false digits)
    | "+"%char :: digits => read_digits 0 false digits
    | digits => read_digits 0 false digits
    end in
  match signed with
  | Some n => Ok n
  | None => Raise ValueError
  end.

End Py.

Notation "x <- c ;; k" := (Py.bind c (fun x => k))
  (at level 61, c at next level, right associativity).

(** ** The numpy routines the script calls *)

Module Np.

(** The scan of [np.argmin] over a one-dimensional array: the running
    minimum [mp] and its index [min_ind] are replaced only by a strictly
    smaller element, so the first occurrence of the minimum wins. *)
Fixpoint argmin_scan (min_ind : nat) (mp : R) (i : nat) (ip : list R) : nat :=
  match ip with
  | [] => min_ind
  | x :: ip' =>
      if Rlt_dec x mp then argmin_scan i x (S i) ip'
      else argmin_scan min_ind mp (S i) ip'
  end.

(** [np.argmin(a)]; an empty sequence is a [ValueError]. *)
Definition argmin (a : list R) : Py.result nat :=
  match a with
  | [] => Py.Raise Py.ValueError
  | x :: a' => Py.Ok (argmin_scan 0 x 1 a')
  end.

(** [np.linspace(start, stop, num)] with the default [endpoint=True]:
    [num] evenly spaced samples over the closed interval, sample [i] being
    [start + i * step] with [step = (stop - start) / (num - 1)]. *)
Definition linspace (start stop : R) (num : nat) : list R :=
  let step := (stop - start) / INR (num - 1) in
  map (fun i => start + INR i * step) (seq 0 num).

(** [np.linalg.norm] of a 3-vector. *)
Definition norm3 (v : R * R * R) : R :=
  let '(x, y, z) := v in sqrt (x * x + y * y + z * z).

Definition sub3 (u v : R * R * R) : R * R * R :=
  let '(a, b, c) := u in let '(x, y, z) := v in (a - x, b - y, c - z).

End Np.

(** ** [Solar_eclipse.py] *)

Module Solar_eclipse.

(** The part of the Skyfield API the script uses.  The ephemeris is an
    outside library: its positions, angles and distances are left abstract
    and are assumed to be available for every instant asked for (the
    loaded ephemeris covers the window). *)
Class Skyfield : Type := {
  Time : Type;
  Datetime : Type;
  Location : Type;
  Body : Type;
  Apparent : Type;
  Angle : Type;
  (** [ts.utc(year, month, day, hour, minute)] *)
  ts_utc : Z -> Z -> Z -> Z -> R -> Time;
  (** [t.tt]: the instant as a Julian date, in days *)
  tt : Time -> R;
  (** [t.utc_datetime()] *)
  utc_datetime : Time -> Datetime;
  (** [earth + Topos(latitude_degrees=lat, longitude_degrees=lon)] *)
  topos : R -> R -> Location;
  (** [location.at(t).observe(body).apparent()] *)
  apparent : Location -> Time -> Body -> Apparent;
  (** [a.separation_from(b)] *)
  separation_from : Apparent -> Apparent -> Angle;
  degrees : Angle -> R;
  radians : Angle -> R;
  (** [a.distance().km] *)
  distance_km : Apparent -> R;
  (** [eph['sun']], [eph['moon']] *)
  eph_sun : Body;
  eph_moon : Body
}.

Definition RADIUS_SUN_KM : R := 696340.
Definition RADIUS_MOON_KM : R := 17374 / 10.

(** Lines 71-72: the last branch, a chord over the Sun's diameter.  [d] is
    a numpy float64 and so is [chord]: this division does not raise.  (Its
    divisor is not 0 where the branch is reached, see
    [partial_overlap_divisor].) *)
Definition partial_overlap (d R_sun R_moon : R) : R :=
  let chord := R_moon + R_sun - d in
  chord / (2 * R_sun).

(** Lines 66-72: the magnitude from the separation and the two angular
    radii. *)
Definition magnitude_policy (d R_sun R_moon : R) : Py.result R :=
  if Rge_dec d (R_sun + R_moon) then Py.Ok 0
  else if Rle_dec d (Rabs (R_sun - R_moon)) then
    Py.truediv (Rmin R_moon R_sun) R_sun
  else Py.Ok (partial_overlap d R_sun R_moon).

(** The magnitude as a real function of the separation, for fixed radii;
    0 where the policy raises. *)
Definition magnitude_value (R_sun R_moon d : R) : R :=
  match magnitude_policy d R_sun R_moon with
  | Py.Ok magnitude => magnitude
  | Py.Raise _ => 0
  end.

(** The separation cut to the interval between the two thresholds, in
    terms of which the three branches are one formula. *)
Definition cut (R_sun R_moon d : R) : R :=
  Rmax (Rabs (R_sun - R_moon)) (Rmin d (R_sun + R_moon)).

(** [asin(RADIUS / distance_km)], lines 62-63.  The distance is a numpy
    float64, so a zero distance does not raise at the division: the
    quotient is infinite and it is [asin] that raises [ValueError]. *)
Definition angular_radius (radius_km distance : R) : Py.result R :=
  if Req_dec_T distance 0 then Py.Raise Py.ValueError
  else Py.asin (radius_km / distance).

(** [decimal(row, a, b)], lines 77-93, for non-negative indexes [a], [b]. *)
Definition decimal (row : list string) (a b : nat) : Py.result R :=
  cell_a <- Py.getitem row a ;;
  integer_part <- Py.int cell_a ;;
  cell_b <- Py.getitem row b ;;
  decimal_part <- Py.int cell_b ;;
  let decimal_length := String.length cell_b in
  let decimal_part :=
    if (integer_part <? 0)%Z then (decimal_part * -1)%Z else decimal_part in
  Py.Ok (IZR integer_part + IZR decimal_part / 10 ^ decimal_length).

Section WithSkyfield.

Context {skyfield : Skyfield}.

(** Lines 43-46, the body of the loop: the separation, in degrees, of the
    apparent Sun and Moon at sample [t]. *)
Definition separation_degrees (location : Location) (sun moon : Body) (t : Time) : R :=
  let sun_app := apparent location t sun in
  let moon_app := apparent location t moon in
  let sep := degrees (separation_from sun_app moon_app) in
  sep.

(** Lines 53-72: the magnitude at the time of greatest eclipse. *)
Definition magnitude_at (location : Location) (sun moon : Body) (t_max : Time)
  : Py.result R :=
  let sun_app := apparent location t_max sun in
  let moon_app := apparent location t_max moon in
  let d := radians (separation_from sun_app moon_app) in
  let sun_distance_km := distance_km sun_app in
  let moon_distance_km := distance_km moon_app in
  R_sun <- angular_radius RADIUS_SUN_KM sun_distance_km ;;
  R_moon <- angular_radius RADIUS_MOON_KM moon_distance_km ;;
  magnitude_policy d R_sun R_moon.

(** [eclipse(minutes, times, location, sun, moon)], lines 27-74. *)
Definition eclipse (minutes : list R) (times : list Time) (location : Location)
  (sun moon : Body) : Py.result (Datetime * R) :=
  let separations := map (separation_degrees location sun moon) times in
  min_idx <- Np.argmin separations ;;
  t_max <- Py.getitem times min_idx ;;
  let t_max_utc := utc_datetime t_max in
  magnitude <- magnitude_at location sun moon t_max ;;
  Py.Ok (t_max_utc, magnitude).

(** Lines 23-24: the sampling of the window around 12 Aug 2026,
    18:00 UTC. *)
Definition minutes : list R := Np.linspace (-60) 60 1000.
Definition times : list Time := map (ts_utc 2026 8 12 18) minutes.

(** One output row: [[lat, lon, time_max, round(magnitude, 4)]]. *)
Definition Row : Type := R * R * Datetime * R.

(** Lines 103-119: the loop over the input rows, here already parsed
    into [(lon, lat)] pairs, with the window it evaluates as a
    parameter.  An exception of [eclipse] is not caught. *)
Fixpoint read_rows (minutes : list R) (times : list Time) (reader : list (R * R))
  (rows : list Row) : Py.result (list Row) :=
  match reader with
  | [] => Py.Ok rows
  | (lon, lat) :: reader' =>
      let location := topos lat lon in
      r <- eclipse minutes times location eph_sun eph_moon ;;
      let '(time_max, magnitude) := r in
      read_rows minutes times reader'
        (rows ++ [(lat, lon, time_max, Py.round magnitude 4)])
  end.

(** The script: the rows computed over the module-level window. *)
Definition script (reader : list (R * R)) : Py.result (list Row) :=
  read_rows minutes times reader [].

(** What one input pair contributes to the output, for stating what the
    loop computes: the row of the result of [eclipse] at that observer. *)
Definition row_of (minutes : list R) (times : list Time) (lonlat : R * R)
  (row : Row) : Prop :=
  let '(lon, lat) := lonlat in
  exists time_max magnitude,
    eclipse minutes times (topos lat lon) eph_sun eph_moon
      = Py.Ok (time_max, magnitude) /\
    row = (lat, lon, time_max, Py.round magnitude 4).

End WithSkyfield.

End Solar_eclipse.

(** ** [Skript_eclipse.py] *)

Module Skript_eclipse.

(** The Skyfield API of the second script: event search and positions
    are the library's and stay abstract. *)
Class Skyfield : Type := {
  Time : Type;
  Observer : Type;
  (** [wgs84.latlon(lat, lon)] *)
  latlon : R -> R -> Observer;
  (** [ts.utc(2026, 8, 12, 15)] and [ts.utc(2026, 8, 12, 20)] *)
  start_time : Time;
  end_time : Time;
  (** [find_discrete(t0, t1, solar_eclipses(eph, observer))] *)
  find_discrete : Time -> Time -> Observer -> list Time * list Z;
  (** [observer.at(ti).observe(sun).apparent().altaz()[0].degrees] *)
  sun_altaz_degrees : Observer -> Time -> R;
  (** [observer.at(ti).observe(body).apparent().position.km] *)
  sun_position_km : Observer -> Time -> R * R * R;
  moon_position_km : Observer -> Time -> R * R * R;
  (** [ti.utc_iso()] *)
  utc_iso : Time -> String.string
}.

Section WithSkyfield.

Context {skyfield : Skyfield}.

(** Lines 60-73: the loop over the zipped events and the fall-through
    return. *)
Fixpoint scan_events (observer : Observer) (zipped : list (Time * Z))
  : option String.string * R :=
  match zipped with
  | [] => (None, 0)
  | (ti, ei) :: rest =>
      if (ei =? 1)%Z then
        let sun_alt := sun_altaz_degrees observer ti in
        if Rgt_dec sun_alt 0 then
          let sun_pos := sun_position_km observer ti in
          let moon_pos := moon_position_km observer ti in
          let distance := Np.norm3 (Np.sub3 sun_pos moon_pos) in
          let mag := Rmax 0 (1 - distance / 10000) in
          (Some (utc_iso ti), Py.round mag 3)
        else scan_events observer rest
      else scan_events observer rest
  end.

(** [estimate_eclipse(lat, lon)], lines 38-73. *)
Definition estimate_eclipse (lat lon : R) : option String.string * R :=
  let observer := latlon lat lon in
  let t0 := start_time in
  let t1 := end_time in
  let '(times, events) := find_discrete t0 t1 observer in
  if (length events =? 0)%nat then (None, 0)
  else scan_events observer (combine times events).

(** Lines 76-81: the loop over the rows [(Lat, Long)] of the frame, which
    appends to the two result lists. *)
Fixpoint iterrows (df : list (R * R)) (eclipse_times : list (option String.string))
  (eclipse_magnitudes : list R) : list (option String.string) * list R :=
  match df with
  | [] => (eclipse_times, eclipse_magnitudes)
  | (lat, lon) :: df' =>
      let '(time, mag) := estimate_eclipse lat lon in
      iterrows df' (eclipse_times ++ [time]) (eclipse_magnitudes ++ [mag])
  end.

End WithSkyfield.

End Skript_eclipse.

(** ** Stub providers

    Deterministic providers for closed instances of the statements below. *)

(** A synthetic ephemeris: times are minutes from the centre of the window,
    the Sun stays at 1.5e8 km in direction 0, the Moon at 384400 km moves
    along a line and is [t / 1000] radians away at minute [t]. *)
Definition stub_ephemeris : Solar_eclipse.Skyfield := {|
  Solar_eclipse.Time := R;
  Solar_eclipse.Datetime := R;
  Solar_eclipse.Location := R * R;
  Solar_eclipse.Body := bool;
  Solar_eclipse.Apparent := R * R;
  Solar_eclipse.Angle := R;
  Solar_eclipse.ts_utc := fun _ _ _ _ minute => minute;
  Solar_eclipse.tt := fun t => t / 1440;
  Solar_eclipse.utc_datetime := fun t => t;
  Solar_eclipse.topos := fun lat lon => (lat, lon);
  Solar_eclipse.apparent := fun _ t body =>
    if body : bool then (0, 150000000) else (t / 1000, 384400);
  Solar_eclipse.separation_from := fun a b => Rabs (fst a - fst b);
  Solar_eclipse.degrees := fun a => a * 180 / PI;
  Solar_eclipse.radians := fun a => a;
  Solar_eclipse.distance_km := snd;
  Solar_eclipse.eph_sun := true;
  Solar_eclipse.eph_moon := false
|}.

(** The same ephemeris with a hole: for an observer on the equator the
    Moon's distance is reported as 0. *)
Definition stub_ephemeris_hole : Solar_eclipse.Skyfield := {|
  Solar_eclipse.Time := R;
  Solar_eclipse.Datetime := R;
  Solar_eclipse.Location := R * R;
  Solar_eclipse.Body := bool;
  Solar_eclipse.Apparent := R * R;
  Solar_eclipse.Angle := R;
  Solar_eclipse.ts_utc := fun _ _ _ _ minute => minute;
  Solar_eclipse.tt := fun t => t / 1440;
  Solar_eclipse.utc_datetime := fun t => t;
  Solar_eclipse.topos := fun lat lon => (lat, lon);
  Solar_eclipse.apparent := fun location t body =>
    if body : bool then (0, 150000000)
    else (t / 1000, if Req_dec_T (fst location) 0 then 0 else 384400);
  Solar_eclipse.separation_from := fun a b => Rabs (fst a - fst b);
  Solar_eclipse.degrees := fun a => a * 180 / PI;
  Solar_eclipse.radians := fun a => a;
  Solar_eclipse.distance_km := snd;
  Solar_eclipse.eph_sun := true;
  Solar_eclipse.eph_moon := false
|}.

(** A synthetic almanac with one maximum (event 1) at minute 0, at which the
    Sun is 5 degrees below the horizon and the two bodies coincide. *)
Definition stub_almanac : Skript_eclipse.Skyfield := {|
  Skript_eclipse.Time := R;
  Skript_eclipse.Observer := R * R;
  Skript_eclipse.latlon := fun lat lon => (lat, lon);
  Skript_eclipse.start_time := -180;
  Skript_eclipse.end_time := 120;
  Skript_eclipse.find_discrete := fun _ _ _ => ([-50; 0; 50], [0; 1; 2]%Z);
  Skript_eclipse.sun_altaz_degrees := fun _ _ => -5;
  Skript_eclipse.sun_position_km := fun _ _ => (150000000, 0, 0);
  Skript_eclipse.moon_position_km := fun _ _ => (150000000, 0, 0);
  Skript_eclipse.utc_iso := fun _ => "2026-08-12T18:00:00Z"%string
|}.

(** A synthetic almanac with two maxima, at minutes 0 and 10: at the first
    the Sun is 5 degrees below the horizon, at the second 5 degrees above.
    The Sun is 1.5e8 km away, the Moon 384400 km, in the same direction. *)
Definition stub_almanac_visible : Skript_eclipse.Skyfield := {|
  Skript_eclipse.Time := R;
  Skript_eclipse.Observer := R * R;
  Skript_eclipse.latlon := fun lat lon => (lat, lon);
  Skript_eclipse.start_time := -180;
  Skript_eclipse.end_time := 120;
  Skript_eclipse.find_discrete := fun _ _ _ => ([-50; 0; 10], [0; 1; 1]%Z);
  Skript_eclipse.sun_altaz_degrees := fun _ t => t - 5;
  Skript_eclipse.sun_position_km := fun _ _ => (150000000, 0, 0);
  Skript_eclipse.moon_position_km := fun _ _ => (384400, 0, 0);
  Skript_eclipse.utc_iso := fun t =>
    if Req_dec_T t 10 then "2026-08-12T18:10:00Z"%string
    else "2026-08-12T18:00:00Z"%string
|}.

(** ** Facts about the runtime *)

Section ArgminFacts.

Lemma argmin_scan_spec (ip : list R) : forall (pre : list R) (min_ind : nat) (mp : R),
    nth_error pre min_ind = Some mp ->
    (forall j y, nth_error pre j = Some y -> mp <= y) ->
    (forall j y, (j < min_ind)%nat -> nth_error pre j = Some y -> mp < y) ->
    let k := Np.argmin_scan min_ind mp (length pre) ip in
    exists m,
      nth_error (pre ++ ip) k = Some m /\
      (forall j y, nth_error (pre ++ ip) j = Some y -> m <= y) /\
      (forall j y, (j < k)%nat -> nth_error (pre ++ ip) j = Some y -> m < y).
Proof.
  induction ip as [|x ip IH]; intros pre min_ind mp Hat Hmin Hfirst; simpl.
  - rewrite app_nil_r. exists mp. auto.
  - assert (Hlen : length (pre ++ [x]) = S (length pre))
      by (rewrite length_app; simpl; lia).
    assert (Hx : nth_error (pre ++ [x]) (length pre) = Some x)
      by (rewrite nth_error_app2, Nat.sub_diag; [reflexivity | lia]).
    assert (Hsplit : forall j y, nth_error (pre ++ [x]) j = Some y ->
               (nth_error pre j = Some y /\ (j < length pre)%nat) \/
               (j = length pre /\ y = x)).
    { intros j y Hj. destruct (Nat.lt_ge_cases j (length pre)) as [Hlt|Hge].
      - left. rewrite nth_error_app1 in Hj by assumption. auto.
      - right. rewrite nth_error_app2 in Hj by assumption.
        destruct (j - length pre)%nat as [|n] eqn:E; simpl in Hj.
        + split; [lia | congruence].
        + destruct n; discriminate. }
    replace (pre ++ x :: ip) with ((pre ++ [x]) ++ ip)
      by (rewrite <- app_assoc; reflexivity).
    specialize (IH (pre ++ [x])). rewrite Hlen in IH.
    destruct (Rlt_dec x mp) as [Hlt|Hge].
    + apply IH.
      * assumption.
      * intros j y Hj. destruct (Hsplit j y Hj) as [[Hp _]|[_ ->]].
        -- specialize (Hmin j y Hp). lra.
        -- lra.
      * intros j y Hjlt Hj. destruct (Hsplit j y Hj) as [[Hp _]|[-> _]].
        -- specialize (Hmin j y Hp). lra.
        -- lia.
    + apply IH.
      * rewrite nth_error_app1; [assumption|].
        apply nth_error_Some. congruence.
      * intros j y Hj. destruct (Hsplit j y Hj) as [[Hp _]|[_ ->]].
        -- eauto.
        -- lra.
      * intros j y Hjlt Hj. destruct (Hsplit j y Hj) as [[Hp _]|[-> _]].
        -- eauto.
        -- assert (min_ind < length pre)%nat
             by (apply nth_error_Some; congruence).
           lia.
Qed.

(** [np.argmin] on a non-empty sequence returns the first index of the
    least element. *)
Lemma argmin_first_min (a : list R) :
  a <> [] ->
  exists k m,
    Np.argmin a = Py.Ok k /\
    nth_error a k = Some m /\
    (forall j y, nth_error a j = Some y -> m <= y) /\
    (forall j y, (j < k)%nat -> nth_error a j = Some y -> m < y).
Proof.
  destruct a as [|x a]; [congruence|]. intros _.
  destruct (argmin_scan_spec a [x] 0%nat x) as (m & H1 & H2 & H3).
  - reflexivity.
  - intros [|[|j]] y Hj; simpl in Hj; try discriminate.
    injection Hj as <-. lra.
  - intros j y Hj. lia.
  - exists (Np.argmin_scan 0 x 1 a), m. simpl in *. auto.
Qed.

End ArgminFacts.


(** ** Facts about the magnitude policy *)

Section MagnitudeFacts.

Import Solar_eclipse.

Lemma truediv_ok (a b : R) : b <> 0 -> Py.truediv a b = Py.Ok (a / b).
Proof.
  intros Hb. unfold Py.truediv. destruct (Req_dec_T b 0); [contradiction | reflexivity].
Qed.

Lemma asin_pos (x : R) : 0 < x <= 1 -> 0 < Ratan.asin x.
Proof.
  intros [H0 H1]. destruct (Req_dec x 1) as [->|Hne].
  - rewrite asin_1. pose proof PI_RGT_0. lra.
  - rewrite asin_atan by lra. rewrite <- atan_0. apply atan_increasing.
    apply Rdiv_lt_0_compat; [lra|].
    apply sqrt_lt_R0. unfold Rsqr. nra.
Qed.

Lemma angular_radius_ok (radius_km distance : R) :
  0 < radius_km -> radius_km <= distance ->
  angular_radius radius_km distance = Py.Ok (Ratan.asin (radius_km / distance)) /\
  0 < Ratan.asin (radius_km / distance).
Proof.
  intros Hr Hd.
  assert (Hq : 0 < radius_km / distance <= 1).
  { split.
    - apply Rdiv_lt_0_compat; lra.
    - apply Rmult_le_reg_r with distance; [lra|].
      unfold Rdiv. rewrite Rmult_assoc, Rinv_l by lra. lra. }
  split; [|apply asin_pos; exact Hq].
  unfold angular_radius, Py.asin.
  destruct (Req_dec_T distance 0); [lra|].
  destruct (Rlt_dec (radius_km / distance) (-1)); [lra|].
  destruct (Rlt_dec 1 (radius_km / distance)); [lra|reflexivity].
Qed.

Lemma magnitude_policy_cut (R_sun R_moon d : R) :
  0 < R_sun -> 0 < R_moon ->
  magnitude_policy d R_sun R_moon =
  Py.Ok ((R_moon + R_sun - cut R_sun R_moon d) / (2 * R_sun)).
Proof.
  intros Hs Hm. unfold magnitude_policy, partial_overlap, cut.
  destruct (Rge_dec d (R_sun + R_moon)) as [Hge|Hlt].
  - f_equal. rewrite (Rmin_right d) by lra. rewrite Rmax_right.
    + field. lra.
    + unfold Rabs. destruct (Rcase_abs (R_sun - R_moon)); lra.
  - apply Rnot_ge_lt in Hlt. rewrite (Rmin_left d) by lra.
    destruct (Rle_dec d (Rabs (R_sun - R_moon))) as [Hle|Hgt];
      [|apply Rnot_le_lt in Hgt].
    + rewrite Rmax_left by lra. rewrite truediv_ok by lra. f_equal.
      unfold Rabs, Rmin.
      destruct (Rcase_abs (R_sun - R_moon)), (Rle_dec R_moon R_sun);
        try lra; field; lra.
    + rewrite Rmax_right by lra. reflexivity.
Qed.

(** The last branch is reached only with a non-zero Sun radius. *)
Lemma partial_overlap_divisor (d R_sun R_moon : R) :
  ~ d >= R_sun + R_moon -> ~ d <= Rabs (R_sun - R_moon) -> 2 * R_sun <> 0.
Proof.
  intros Hlt Hgt. apply Rnot_ge_lt in Hlt. apply Rnot_le_lt in Hgt.
  unfold Rabs in Hgt. destruct (Rcase_abs (R_sun - R_moon)); lra.
Qed.

Lemma cut_lipschitz (R_sun R_moon d1 d2 : R) :
  Rabs (cut R_sun R_moon d1 - cut R_sun R_moon d2) <= Rabs (d1 - d2).
Proof.
  unfold cut, Rmax, Rmin, Rabs.
  repeat match goal with
         | |- context [Rle_dec ?a ?b] => destruct (Rle_dec a b)
         | H : context [Rle_dec ?a ?b] |- _ => destruct (Rle_dec a b)
         | |- context [Rcase_abs ?a] => destruct (Rcase_abs a)
         | H : context [Rcase_abs ?a] |- _ => destruct (Rcase_abs a)
         end; lra.
Qed.

Lemma magnitude_value_cut (R_sun R_moon d : R) :
  0 < R_sun -> 0 < R_moon ->
  magnitude_value R_sun R_moon d =
  (R_moon + R_sun - cut R_sun R_moon d) / (2 * R_sun).
Proof.
  intros Hs Hm. unfold magnitude_value.
  rewrite magnitude_policy_cut by assumption. reflexivity.
Qed.

Lemma magnitude_value_lipschitz (R_sun R_moon d1 d2 : R) :
  0 < R_sun -> 0 < R_moon ->
  Rabs (magnitude_value R_sun R_moon d1 - magnitude_value R_sun R_moon d2)
  <= Rabs (d1 - d2) / (2 * R_sun).
Proof.
  intros Hs Hm. rewrite !magnitude_value_cut by assumption.
  replace ((R_moon + R_sun - cut R_sun R_moon d1) / (2 * R_sun) -
           (R_moon + R_sun - cut R_sun R_moon d2) / (2 * R_sun))
    with (- (cut R_sun R_moon d1 - cut R_sun R_moon d2) / (2 * R_sun))
    by (field; lra).
  unfold Rdiv. rewrite Rabs_mult, Rabs_Ropp.
  rewrite (Rabs_right (/ (2 * R_sun))).
  - apply Rmult_le_compat_r.
    + apply Rlt_le, Rinv_0_lt_compat. lra.
    + apply cut_lipschitz.
  - apply Rle_ge, Rlt_le, Rinv_0_lt_compat. lra.
Qed.

Lemma magnitude_value_continuous (R_sun R_moon d : R) :
  0 < R_sun -> 0 < R_moon ->
  continuity_pt (magnitude_value R_sun R_moon) d.
Proof.
  intros Hs Hm eps Heps.
  exists (eps * (2 * R_sun)). split; [nra|].
  intros x [_ Hx]. simpl in *. unfold Rdist in *.
  eapply Rle_lt_trans; [apply magnitude_value_lipschitz; assumption|].
  apply Rmult_lt_reg_r with (2 * R_sun); [lra|].
  unfold Rdiv. rewrite Rmult_assoc, Rinv_l by lra. lra.
Qed.

End MagnitudeFacts.

(** ** Facts about [eclipse] *)

Section EclipseFacts.

Import Solar_eclipse.

Context {skyfield : Skyfield}.

(** On a non-empty window [eclipse] evaluates the magnitude at the sample
    of the first least separation, and reports that sample's time. *)
Lemma eclipse_unfold (minutes : list R) (times : list Time) (location : Location)
  (sun moon : Body) :
  times <> [] ->
  exists (min_idx : nat) (t_max : Time),
    nth_error times min_idx = Some t_max /\
    (forall j t, nth_error times j = Some t ->
                 separation_degrees location sun moon t_max <= separation_degrees location sun moon t) /\
    (forall j t, (j < min_idx)%nat -> nth_error times j = Some t ->
                 separation_degrees location sun moon t_max < separation_degrees location sun moon t) /\
    eclipse minutes times location sun moon =
      (magnitude <- magnitude_at location sun moon t_max ;;
       Py.Ok (utc_datetime t_max, magnitude)).
Proof.
  intros Hne.
  destruct (argmin_first_min (map (separation_degrees location sun moon) times))
    as (k & m & Harg & Hk & Hmin & Hfirst).
  { destruct times; [congruence | discriminate]. }
  rewrite nth_error_map in Hk.
  destruct (nth_error times k) as [t_max|] eqn:Ht; [|discriminate].
  injection Hk as <-.
  exists k, t_max. split; [exact Ht|]. split; [|split].
  - intros j t Hj. apply (Hmin j). rewrite nth_error_map, Hj. reflexivity.
  - intros j t Hlt Hj. apply (Hfirst j); [assumption|].
    rewrite nth_error_map, Hj. reflexivity.
  - unfold eclipse. rewrite Harg. simpl.
    unfold Py.getitem. rewrite Ht. reflexivity.
Qed.

Lemma magnitude_at_ok (location : Location) (sun moon : Body) (t_max : Time)
  (R_sun R_moon : R) :
  angular_radius RADIUS_SUN_KM (distance_km (apparent location t_max sun))
    = Py.Ok R_sun ->
  angular_radius RADIUS_MOON_KM (distance_km (apparent location t_max moon))
    = Py.Ok R_moon ->
  magnitude_at location sun moon t_max =
  magnitude_policy
    (radians (separation_from (apparent location t_max sun)
                              (apparent location t_max moon)))
    R_sun R_moon.
Proof.
  intros Hs Hm. unfold magnitude_at. rewrite Hs, Hm. reflexivity.
Qed.

Lemma magnitude_policy_unit_interval (d R_sun R_moon : R) :
  0 < R_sun -> 0 < R_moon ->
  exists magnitude,
    magnitude_policy d R_sun R_moon = Py.Ok magnitude /\ 0 <= magnitude <= 1.
Proof.
  intros Hs Hm. rewrite magnitude_policy_cut by assumption.
  eexists; split; [reflexivity|].
  assert (Hcut : Rabs (R_sun - R_moon) <= cut R_sun R_moon d <= R_sun + R_moon).
  { unfold cut, Rmax, Rmin, Rabs.
    repeat match goal with
           | |- context [Rle_dec ?a ?b] => destruct (Rle_dec a b)
           | |- context [Rcase_abs ?a] => destruct (Rcase_abs a)
           end; lra. }
  assert (Habs : R_moon - R_sun <= Rabs (R_sun - R_moon)).
  { unfold Rabs. destruct (Rcase_abs (R_sun - R_moon)); lra. }
  split.
  - apply Rmult_le_reg_r with (2 * R_sun); [lra|].
    unfold Rdiv. rewrite Rmult_assoc, Rinv_l by lra. lra.
  - apply Rmult_le_reg_r with (2 * R_sun); [lra|].
    unfold Rdiv. rewrite Rmult_assoc, Rinv_l by lra. lra.
Qed.

(** C1.  Operation B is the three-branch policy.  With
    [R_sun = asin(696340 / sun_distance_km)] and
    [R_moon = asin(1737.4 / moon_distance_km)] both computed and positive,
    and [d] the separation in radians at [t_max], the magnitude is produced
    and it is 0 when [d >= R_sun + R_moon], else
    [min(R_moon, R_sun) / R_sun] when [d <= |R_sun - R_moon|], else
    [(R_moon + R_sun - d) / (2 * R_sun)]. *)
Theorem magnitude_at_three_branch_policy (location : Location) (sun moon : Body)
  (t_max : Time) (R_sun R_moon : R) :
  let sun_app := apparent location t_max sun in
  let moon_app := apparent location t_max moon in
  let d := radians (separation_from sun_app moon_app) in
  angular_radius RADIUS_SUN_KM (distance_km sun_app) = Py.Ok R_sun ->
  angular_radius RADIUS_MOON_KM (distance_km moon_app) = Py.Ok R_moon ->
  0 < R_sun -> 0 < R_moon ->
  R_sun = Ratan.asin (696340 / distance_km sun_app) /\
  R_moon = Ratan.asin (17374 / 10 / distance_km moon_app) /\
  exists magnitude,
    magnitude_at location sun moon t_max = Py.Ok magnitude /\
    (d >= R_sun + R_moon -> magnitude = 0) /\
    (d < R_sun + R_moon -> d <= Rabs (R_sun - R_moon) ->
     magnitude = Rmin R_moon R_sun / R_sun) /\
    (d < R_sun + R_moon -> Rabs (R_sun - R_moon) < d ->
     magnitude = (R_moon + R_sun - d) / (2 * R_sun)).
Proof.
  intros sun_app moon_app d Hs Hm Hsp Hmp.
  assert (Hasin : forall radius dist r,
             angular_radius radius dist = Py.Ok r -> r = Ratan.asin (radius / dist)).
  { intros radius dist r. unfold angular_radius, Py.asin.
    destruct (Req_dec_T dist 0); [discriminate|].
    destruct (Rlt_dec (radius / dist) (-1)); [discriminate|].
    destruct (Rlt_dec 1 (radius / dist)); [discriminate|].
    intros [= <-]. reflexivity. }
  split; [exact (Hasin _ _ _ Hs)|]. split; [exact (Hasin _ _ _ Hm)|].
  rewrite (magnitude_at_ok _ _ _ _ _ _ Hs Hm). fold sun_app moon_app d.
  unfold magnitude_policy, partial_overlap.
  destruct (Rge_dec d (R_sun + R_moon)) as [Hge|Hlt].
  - exists 0. split; [reflexivity|]. repeat split; intros; lra.
  - destruct (Rle_dec d (Rabs (R_sun - R_moon))) as [Hle|Hgt].
    + rewrite truediv_ok by lra. eexists. split; [reflexivity|].
      repeat split; intros; lra.
    + eexists. split; [reflexivity|].
      unfold partial_overlap. repeat split; intros; lra.
Qed.

(** C2.  For a non-empty window on which both apparent distances exceed the
    physical radii, [eclipse] returns, and its magnitude is in [0, 1]. *)
Theorem eclipse_magnitude_in_unit_interval (minutes : list R) (times : list Time)
  (location : Location) (sun moon : Body) :
  times <> [] ->
  (forall t, In t times ->
     RADIUS_SUN_KM < distance_km (apparent location t sun) /\
     RADIUS_MOON_KM < distance_km (apparent location t moon)) ->
  exists t_max_utc magnitude,
    eclipse minutes times location sun moon = Py.Ok (t_max_utc, magnitude) /\
    0 <= magnitude <= 1.
Proof.
  intros Hne Hdist.
  destruct (eclipse_unfold minutes times location sun moon Hne)
    as (k & t_max & Hk & _ & _ & Heq).
  destruct (Hdist t_max (nth_error_In _ _ Hk)) as [Hsun Hmoon].
  unfold RADIUS_SUN_KM, RADIUS_MOON_KM in Hsun, Hmoon.
  destruct (angular_radius_ok RADIUS_SUN_KM
              (distance_km (apparent location t_max sun))) as [Hs Hsp];
    [unfold RADIUS_SUN_KM; lra | unfold RADIUS_SUN_KM; lra |].
  destruct (angular_radius_ok RADIUS_MOON_KM
              (distance_km (apparent location t_max moon))) as [Hm Hmp];
    [unfold RADIUS_MOON_KM; lra | unfold RADIUS_MOON_KM; lra |].
  destruct (magnitude_policy_unit_interval
              (radians (separation_from (apparent location t_max sun)
                                        (apparent location t_max moon)))
              _ _ Hsp Hmp) as (magnitude & Hpol & Hrange).
  exists (utc_datetime t_max), magnitude. split; [|exact Hrange].
  rewrite Heq, (magnitude_at_ok _ _ _ _ _ _ Hs Hm), Hpol. reflexivity.
Qed.

(** C3, as the code has it.  On an empty window [eclipse] raises the
    [ValueError] of [np.argmin], and the loop over the rows does not catch
    it: with at least one row left the batch ends in that error. *)
Theorem empty_window_raises_and_aborts (minutes : list R) :
  (forall location sun moon,
     eclipse minutes [] location sun moon = Py.Raise Py.ValueError) /\
  (forall lonlat reader rows,
     read_rows minutes [] (lonlat :: reader) rows = Py.Raise Py.ValueError).
Proof.
  split.
  - reflexivity.
  - intros [lon lat] reader rows. reflexivity.
Qed.

(** C4.  On a non-empty window the sample [eclipse] selects has the least
    separation of the window, every earlier sample has a strictly larger
    one, and the reported time and the magnitude are those of that
    sample. *)
Theorem eclipse_selects_earliest_minimum (minutes : list R) (times : list Time)
  (location : Location) (sun moon : Body) :
  times <> [] ->
  exists (min_idx : nat) (t_max : Time),
    nth_error times min_idx = Some t_max /\
    (forall j t, nth_error times j = Some t ->
       separation_degrees location sun moon t_max
       <= separation_degrees location sun moon t) /\
    (forall j t, (j < min_idx)%nat -> nth_error times j = Some t ->
       separation_degrees location sun moon t_max
       < separation_degrees location sun moon t) /\
    eclipse minutes times location sun moon =
      (magnitude <- magnitude_at location sun moon t_max ;;
       Py.Ok (utc_datetime t_max, magnitude)).
Proof.
  exact (eclipse_unfold minutes times location sun moon).
Qed.

(** C5.  On a non-empty window the time [eclipse] reports is that of a
    sample of the window. *)
Theorem eclipse_time_is_a_sample (minutes : list R) (times : list Time)
  (location : Location) (sun moon : Body) :
  times <> [] ->
  exists t_max : Time,
    In t_max times /\
    eclipse minutes times location sun moon =
      (magnitude <- magnitude_at location sun moon t_max ;;
       Py.Ok (utc_datetime t_max, magnitude)) /\
    (forall t_max_utc magnitude,
       eclipse minutes times location sun moon = Py.Ok (t_max_utc, magnitude) ->
       t_max_utc = utc_datetime t_max).
Proof.
  intros Hne.
  destruct (eclipse_unfold minutes times location sun moon Hne)
    as (k & t_max & Hk & _ & _ & Heq).
  exists t_max. split; [exact (nth_error_In _ _ Hk)|]. split; [exact Heq|].
  intros t_max_utc magnitude. rewrite Heq.
  destruct (magnitude_at location sun moon t_max); simpl; congruence.
Qed.

(** C10.  [eclipse] does not read its [minutes] argument. *)
Theorem eclipse_ignores_minutes (minutes1 minutes2 : list R) (times : list Time)
  (location : Location) (sun moon : Body) :
  eclipse minutes1 times location sun moon =
  eclipse minutes2 times location sun moon.
Proof.
  reflexivity.
Qed.

End EclipseFacts.

(** ** The magnitude as a function of the separation *)

Section MagnitudeShape.

Import Solar_eclipse.

(** C6.  For positive radii and two separations [d1 <= d2] strictly inside
    the partial-overlap range, both magnitudes are produced by the linear
    formula, the one at [d2] is at most the one at [d1], and the magnitude
    is continuous at both separations. *)
Theorem partial_overlap_magnitude_non_increasing (R_sun R_moon d1 d2 : R) :
  0 < R_sun -> 0 < R_moon ->
  Rabs (R_sun - R_moon) < d1 -> d1 <= d2 -> d2 < R_sun + R_moon ->
  exists m1 m2,
    magnitude_policy d1 R_sun R_moon = Py.Ok m1 /\
    magnitude_policy d2 R_sun R_moon = Py.Ok m2 /\
    m1 = (R_moon + R_sun - d1) / (2 * R_sun) /\
    m2 = (R_moon + R_sun - d2) / (2 * R_sun) /\
    m2 <= m1 /\
    continuity_pt (magnitude_value R_sun R_moon) d1 /\
    continuity_pt (magnitude_value R_sun R_moon) d2.
Proof.
  intros Hs Hm Hlo H12 Hhi.
  assert (Hbranch : forall d, Rabs (R_sun - R_moon) < d -> d < R_sun + R_moon ->
            magnitude_policy d R_sun R_moon =
            Py.Ok ((R_moon + R_sun - d) / (2 * R_sun))).
  { intros d Hd1 Hd2. unfold magnitude_policy, partial_overlap.
    destruct (Rge_dec d (R_sun + R_moon)); [lra|].
    destruct (Rle_dec d (Rabs (R_sun - R_moon))); [lra|].
    reflexivity. }
  exists ((R_moon + R_sun - d1) / (2 * R_sun)), ((R_moon + R_sun - d2) / (2 * R_sun)).
  split; [apply Hbranch; lra|]. split; [apply Hbranch; lra|].
  split; [reflexivity|]. split; [reflexivity|].
  split; [|split; apply magnitude_value_continuous; assumption].
  unfold Rdiv. apply Rmult_le_compat_r; [|lra].
  apply Rlt_le, Rinv_0_lt_compat. lra.
Qed.

(** C9.  For positive radii the linear formula gives 0 at
    [d = R_sun + R_moon] and [min(R_moon, R_sun) / R_sun] at
    [d = |R_sun - R_moon|], the values the policy has there; the policy
    produces a magnitude at every separation and that magnitude is a
    continuous function of the separation. *)
Theorem magnitude_branches_meet_at_thresholds (R_sun R_moon : R) :
  0 < R_sun -> 0 < R_moon ->
  partial_overlap (R_sun + R_moon) R_sun R_moon = 0 /\
  magnitude_policy (R_sun + R_moon) R_sun R_moon = Py.Ok 0 /\
  partial_overlap (Rabs (R_sun - R_moon)) R_sun R_moon
    = Rmin R_moon R_sun / R_sun /\
  magnitude_policy (Rabs (R_sun - R_moon)) R_sun R_moon
    = Py.Ok (Rmin R_moon R_sun / R_sun) /\
  (forall d, magnitude_policy d R_sun R_moon
             = Py.Ok (magnitude_value R_sun R_moon d)) /\
  (forall d, continuity_pt (magnitude_value R_sun R_moon) d).
Proof.
  intros Hs Hm.
  assert (Habs : Rabs (R_sun - R_moon) < R_sun + R_moon).
  { unfold Rabs. destruct (Rcase_abs (R_sun - R_moon)); lra. }
  split; [|split; [|split; [|split; [|split]]]].
  - unfold partial_overlap. field. lra.
  - unfold magnitude_policy.
    destruct (Rge_dec (R_sun + R_moon) (R_sun + R_moon)); [reflexivity | lra].
  - unfold partial_overlap, Rabs, Rmin.
    destruct (Rcase_abs (R_sun - R_moon)), (Rle_dec R_moon R_sun);
      try lra; field; lra.
  - unfold magnitude_policy.
    destruct (Rge_dec (Rabs (R_sun - R_moon)) (R_sun + R_moon)); [lra|].
    destruct (Rle_dec (Rabs (R_sun - R_moon)) (Rabs (R_sun - R_moon))); [|lra].
    apply truediv_ok. lra.
  - intros d. unfold magnitude_value.
    rewrite magnitude_policy_cut by assumption. reflexivity.
  - intros d. apply magnitude_value_continuous; assumption.
Qed.

End MagnitudeShape.

(** ** The reference window *)

Section WindowFacts.

Import Solar_eclipse.

Lemma linspace_length (start stop : R) (num : nat) :
  length (Np.linspace start stop num) = num.
Proof.
  unfold Np.linspace. rewrite length_map, length_seq. reflexivity.
Qed.

Lemma linspace_nth (start stop : R) (num i : nat) :
  (i < num)%nat ->
  nth_error (Np.linspace start stop num) i
  = Some (start + INR i * ((stop - start) / INR (num - 1))).
Proof.
  intros Hi. unfold Np.linspace.
  rewrite nth_error_map, nth_error_seq.
  apply Nat.ltb_lt in Hi. rewrite Hi. reflexivity.
Qed.

Lemma minutes_nth (i : nat) :
  (i < 1000)%nat ->
  nth_error (Np.linspace (-60) 60 1000) i = Some (-60 + INR i * (120 / 999)).
Proof.
  intros Hi. rewrite linspace_nth by assumption.
  replace (INR (1000 - 1)) with 999.
  - do 2 f_equal. lra.
  - rewrite INR_IZR_INZ. f_equal.
Qed.

Context {skyfield : Skyfield}.

Lemma times_nth (i : nat) :
  (i < 1000)%nat ->
  nth_error times i = Some (ts_utc 2026 8 12 18 (-60 + INR i * (120 / 999))).
Proof.
  intros Hi. unfold times, minutes.
  rewrite nth_error_map, minutes_nth by assumption. reflexivity.
Qed.

(** C8.  Provided [ts.utc] places minute [m] of an hour [m / 1440] days
    after the start of that hour, the window of the script has 1000
    samples, sample [i] lying [-60 + i * 120 / 999] minutes from
    12 Aug 2026 18:00 UTC, so the first is 60 minutes before it and the
    last 60 minutes after it, and the samples are strictly increasing in
    time. *)
Theorem reference_window_uniform_and_increasing :
  (forall y mo d h m,
     tt (ts_utc y mo d h m) = tt (ts_utc y mo d h 0) + m / 1440) ->
  let centre := ts_utc 2026 8 12 18 0 in
  length minutes = 1000%nat /\
  length times = 1000%nat /\
  (forall i, (i < 1000)%nat ->
     nth_error minutes i = Some (-60 + INR i * (120 / 999)) /\
     exists t, nth_error times i = Some t /\
               tt t = tt centre + (-60 + INR i * (120 / 999)) / 1440) /\
  (exists t_first t_last,
     nth_error times 0 = Some t_first /\ nth_error times 999 = Some t_last /\
     tt t_first = tt centre - 60 / 1440 /\ tt t_last = tt centre + 60 / 1440) /\
  (forall i j mi mj, (i < j)%nat ->
     nth_error minutes i = Some mi -> nth_error minutes j = Some mj -> mi < mj) /\
  (forall i j ti tj, (i < j)%nat ->
     nth_error times i = Some ti -> nth_error times j = Some tj -> tt ti < tt tj).
Proof.
  intros Hutc centre.
  assert (Hlen : length minutes = 1000%nat) by apply linspace_length.
  assert (Hlen' : length times = 1000%nat)
    by (unfold times; rewrite length_map; exact Hlen).
  assert (Hinr : forall i j, (i < j)%nat ->
            -60 + INR i * (120 / 999) < -60 + INR j * (120 / 999)).
  { intros i j Hij. apply lt_INR in Hij. lra. }
  assert (Hbound : forall (A : Type) (l : list A) k x,
            length l = 1000%nat -> nth_error l k = Some x -> (k < 1000)%nat).
  { intros A l k x Hl Hk. rewrite <- Hl. apply nth_error_Some. congruence. }
  split; [exact Hlen|]. split; [exact Hlen'|]. split; [|split; [|split]].
  - intros i Hi. split; [apply minutes_nth; exact Hi|].
    eexists. split; [apply times_nth; exact Hi|]. apply Hutc.
  - do 2 eexists. split; [apply times_nth; lia|].
    split; [apply times_nth; lia|].
    rewrite 2!(Hutc _ _ _ _ (_ + _)). fold centre. split.
    + simpl INR. lra.
    + replace (INR 999) with 999 by (rewrite INR_IZR_INZ; f_equal). lra.
  - intros i j mi mj Hij Hi Hj.
    assert (Hj' := Hbound _ _ _ _ Hlen Hj).
    unfold minutes in Hi, Hj.
    rewrite minutes_nth in Hi by lia. rewrite minutes_nth in Hj by lia.
    injection Hi as <-. injection Hj as <-. apply Hinr. exact Hij.
  - intros i j ti tj Hij Hi Hj.
    assert (Hj' := Hbound _ _ _ _ Hlen' Hj).
    rewrite times_nth in Hi by lia. rewrite times_nth in Hj by lia.
    injection Hi as <-. injection Hj as <-.
    rewrite (Hutc _ _ _ _ (-60 + INR i * (120 / 999))).
    rewrite (Hutc _ _ _ _ (-60 + INR j * (120 / 999))).
    specialize (Hinr i j Hij). lra.
Qed.

End WindowFacts.

(** ** Facts about [estimate_eclipse] *)

Section HorizonFacts.

Import Skript_eclipse.

Context {skyfield : Skyfield}.

Lemma scan_events_below_horizon (observer : Observer) (zipped : list (Time * Z)) :
  (forall ti ei, In (ti, ei) zipped -> ei = 1%Z ->
                 sun_altaz_degrees observer ti <= 0) ->
  scan_events observer zipped = (None, 0).
Proof.
  induction zipped as [|[ti ei] rest IH]; intros Hlow; simpl.
  - reflexivity.
  - assert (Hrest : scan_events observer rest = (None, 0)).
    { apply IH. intros t e Hin. apply Hlow. right. exact Hin. }
    destruct (Z.eqb_spec ei 1) as [->|Hne]; [|exact Hrest].
    destruct (Rgt_dec (sun_altaz_degrees observer ti) 0) as [Hup|_];
      [|exact Hrest].
    specialize (Hlow ti 1%Z (or_introl eq_refl) eq_refl). lra.
Qed.

(** C7.  When at every maximum (event 1) found for the observer the Sun's
    altitude is not above 0 degrees, [estimate_eclipse] reports no visible
    eclipse: no time and magnitude 0, whatever the positions of the Sun and
    the Moon at those instants. *)
Theorem estimate_eclipse_below_horizon_not_visible (lat lon : R) :
  let observer := latlon lat lon in
  let found := find_discrete start_time end_time observer in
  (forall ti ei, In (ti, ei) (combine (fst found) (snd found)) -> ei = 1%Z ->
                 sun_altaz_degrees observer ti <= 0) ->
  estimate_eclipse lat lon = (None, 0).
Proof.
  intros observer found Hlow. unfold estimate_eclipse.
  fold observer. fold found. destruct found as [times events]. simpl in Hlow.
  destruct (length events =? 0)%nat; [reflexivity|].
  apply scan_events_below_horizon. exact Hlow.
Qed.

End HorizonFacts.

(** ** Closed instances on the stub providers *)

Section Instances.

Import Solar_eclipse.

Lemma stub_separation_degrees (location : R * R) (t : R) :
  separation_degrees (skyfield := stub_ephemeris) location true false t
  = Rabs t * (/ 1000 * 180 * / PI).
Proof.
  unfold separation_degrees. simpl.
  replace (0 - t / 1000) with (- (t * / 1000)) by lra.
  rewrite Rabs_Ropp, Rabs_mult, (Rabs_right (/ 1000)) by lra. lra.
Qed.

Lemma stub_degree_factor : 0 < / 1000 * 180 * / PI.
Proof.
  pose proof (Rinv_0_lt_compat PI PI_RGT_0). lra.
Qed.

Lemma stub_angular_radii :
  angular_radius RADIUS_SUN_KM 150000000
    = Py.Ok (Ratan.asin (696340 / 150000000)) /\
  angular_radius RADIUS_MOON_KM 384400
    = Py.Ok (Ratan.asin (17374 / 10 / 384400)) /\
  0 < Ratan.asin (696340 / 150000000) /\
  0 < Ratan.asin (17374 / 10 / 384400).
Proof.
  destruct (angular_radius_ok RADIUS_SUN_KM 150000000) as [Hs Hsp];
    [unfold RADIUS_SUN_KM; lra | unfold RADIUS_SUN_KM; lra |].
  destruct (angular_radius_ok RADIUS_MOON_KM 384400) as [Hm Hmp];
    [unfold RADIUS_MOON_KM; lra | unfold RADIUS_MOON_KM; lra |].
  auto.
Qed.

(** C1 on the stub, at the centre sample: separation 0 falls in the
    containment branch. *)
Lemma magnitude_at_three_branch_policy_witness :
  let R_sun := Ratan.asin (696340 / 150000000) in
  let R_moon := Ratan.asin (17374 / 10 / 384400) in
  0 < R_sun /\ 0 < R_moon /\
  exists magnitude,
    magnitude_at (skyfield := stub_ephemeris) (50, 14) true false 0
      = Py.Ok magnitude /\
    magnitude = Rmin R_moon R_sun / R_sun.
Proof.
  intros R_sun R_moon.
  destruct stub_angular_radii as (Hs & Hm & Hsp & Hmp).
  destruct (@magnitude_at_three_branch_policy stub_ephemeris (50, 14) true false 0
              R_sun R_moon Hs Hm Hsp Hmp)
    as (_ & _ & magnitude & Hok & _ & Hfull & _).
  split; [exact Hsp|]. split; [exact Hmp|].
  exists magnitude. split; [exact Hok|].
  simpl in Hfull. replace (0 - 0 / 1000) with 0 in Hfull by lra.
  rewrite Rabs_R0 in Hfull. apply Hfull.
  - unfold R_sun, R_moon. lra.
  - apply Rabs_pos.
Defined.

(** C2 on the stub, over a three-sample window. *)
Lemma eclipse_magnitude_in_unit_interval_witness :
  exists t_max_utc magnitude,
    eclipse (skyfield := stub_ephemeris) [] [-1; 0; 1] (50, 14) true false
      = Py.Ok (t_max_utc, magnitude) /\
    0 <= magnitude <= 1.
Proof.
  apply (@eclipse_magnitude_in_unit_interval stub_ephemeris).
  - discriminate.
  - intros t _. unfold RADIUS_SUN_KM, RADIUS_MOON_KM. simpl. lra.
Defined.

(** C3 as stated fails: with an empty window the batch over two observers
    returns no rows at all, it ends in the [ValueError] of the first one. *)
Lemma empty_window_batch_has_no_rows :
  read_rows (skyfield := stub_ephemeris) [] [] [(14, 50); (17, 49)] []
    = Py.Raise Py.ValueError /\
  ~ exists rows,
      read_rows (skyfield := stub_ephemeris) [] [] [(14, 50); (17, 49)] []
        = Py.Ok rows.
Proof.
  split; [reflexivity|]. intros [rows Hrows]. discriminate Hrows.
Qed.

(** C4 on the stub: the separation is least at minutes -1 and 1, and the
    earlier of the two is selected. *)
Lemma eclipse_selects_earliest_minimum_witness :
  [-2; -1; 1; 2] <> [] /\
  eclipse (skyfield := stub_ephemeris) [] [-2; -1; 1; 2] (50, 14) true false
  = (magnitude <- magnitude_at (skyfield := stub_ephemeris) (50, 14) true false (-1) ;;
     Py.Ok (-1, magnitude)).
Proof.
  assert (Hne : [-2; -1; 1; 2] <> []) by discriminate.
  split; [exact Hne|].
  destruct (@eclipse_selects_earliest_minimum stub_ephemeris [] [-2; -1; 1; 2]
              (50, 14) true false Hne)
    as (k & t_max & Hk & Hmin & Hfirst & Heq).
  pose proof stub_degree_factor as Hc.
  assert (H1 : Rabs (-1) = 1)
    by (unfold Rabs; destruct (Rcase_abs (-1)); lra).
  assert (H2 : Rabs (-2) = 2)
    by (unfold Rabs; destruct (Rcase_abs (-2)); lra).
  assert (H2' : Rabs 2 = 2)
    by (unfold Rabs; destruct (Rcase_abs 2); lra).
  specialize (Hmin 1%nat (-1) eq_refl).
  rewrite !stub_separation_degrees in Hmin.
  destruct k as [|[|[|[|k]]]]; simpl in Hk;
    [injection Hk as <- .. | idtac].
  - exfalso. rewrite H1, H2 in Hmin. nra.
  - exact Heq.
  - exfalso. specialize (Hfirst 1%nat (-1) (Nat.lt_succ_diag_r 1) eq_refl).
    rewrite !stub_separation_degrees in Hfirst. rewrite H1, Rabs_R1 in Hfirst.
    lra.
  - exfalso. rewrite H1, H2' in Hmin. nra.
  - exfalso. destruct k; discriminate.
Defined.

(** C5 on the stub. *)
Lemma eclipse_time_is_a_sample_witness :
  exists t_max : R,
    In t_max [-1; 0; 1] /\
    forall t_max_utc magnitude,
      eclipse (skyfield := stub_ephemeris) [] [-1; 0; 1] (50, 14) true false
        = Py.Ok (t_max_utc, magnitude) ->
      t_max_utc = t_max.
Proof.
  destruct (@eclipse_time_is_a_sample stub_ephemeris [] [-1; 0; 1] (50, 14)
              true false)
    as (t_max & Hin & _ & Hret); [discriminate|].
  exists t_max. split; [exact Hin | exact Hret].
Defined.

(** C6 at radii 3 and 2, separations 2 and 4. *)
Lemma partial_overlap_magnitude_non_increasing_witness :
  exists m1 m2,
    magnitude_policy 2 3 2 = Py.Ok m1 /\
    magnitude_policy 4 3 2 = Py.Ok m2 /\
    m2 <= m1.
Proof.
  destruct (partial_overlap_magnitude_non_increasing 3 2 2 4)
    as (m1 & m2 & H1 & H2 & _ & _ & Hle & _); try lra.
  - unfold Rabs. destruct (Rcase_abs (3 - 2)); lra.
  - exists m1, m2. auto.
Defined.

(** C9 at radii 3 and 2. *)
Lemma magnitude_branches_meet_at_thresholds_witness :
  partial_overlap (3 + 2) 3 2 = 0 /\
  partial_overlap (Rabs (3 - 2)) 3 2 = Rmin 2 3 / 3.
Proof.
  destruct (magnitude_branches_meet_at_thresholds 3 2)
    as (H1 & _ & H2 & _); [lra | lra |].
  split; assumption.
Defined.

(** C8 on the stub, whose times are minutes and whose [tt] is in days. *)
Lemma reference_window_uniform_and_increasing_witness :
  length (times (skyfield := stub_ephemeris)) = 1000%nat /\
  forall i j ti tj, (i < j)%nat ->
    nth_error (times (skyfield := stub_ephemeris)) i = Some ti ->
    nth_error (times (skyfield := stub_ephemeris)) j = Some tj ->
    ti / 1440 < tj / 1440.
Proof.
  destruct (@reference_window_uniform_and_increasing stub_ephemeris)
    as (_ & Hlen & _ & _ & _ & Hinc).
  - intros y mo d h m. simpl. lra.
  - split; [exact Hlen | exact Hinc].
Defined.

(** C7 on the stub almanac: the only maximum has the Sun 5 degrees below
    the horizon, with the Sun and the Moon in the same place. *)
Lemma estimate_eclipse_below_horizon_not_visible_witness :
  Skript_eclipse.estimate_eclipse (skyfield := stub_almanac) 50 14 = (None, 0).
Proof.
  apply (@estimate_eclipse_below_horizon_not_visible stub_almanac).
  intros ti ei _ _. simpl. lra.
Defined.

(** *** Traces of the definitions on small inputs *)

Ltac decide_order :=
  repeat match goal with
         | |- context [Rcase_abs ?a] => destruct (Rcase_abs a); try lra
         | |- context [Rlt_dec ?a ?b] => destruct (Rlt_dec a b); try lra
         | |- context [Rle_dec ?a ?b] => destruct (Rle_dec a b); try lra
         | |- context [Rge_dec ?a ?b] => destruct (Rge_dec a b); try lra
         | |- context [Rgt_dec ?a ?b] => destruct (Rgt_dec a b); try lra
         | |- context [Req_dec_T ?a ?b] => destruct (Req_dec_T a b); try lra
         end.

Example argmin_first_of_two_minima : Np.argmin [3; 1; 2; 1] = Py.Ok 1%nat.
Proof.
  unfold Np.argmin, Np.argmin_scan. decide_order; reflexivity.
Qed.

Example argmin_empty : Np.argmin [] = Py.Raise Py.ValueError.
Proof.
  reflexivity.
Qed.

Example magnitude_no_contact : magnitude_policy 6 3 2 = Py.Ok 0.
Proof.
  unfold magnitude_policy. decide_order; reflexivity.
Qed.

Example magnitude_contained : magnitude_policy (1 / 2) 3 2 = Py.Ok (2 / 3).
Proof.
  unfold magnitude_policy, Py.truediv, Rabs, Rmin. decide_order; f_equal; lra.
Qed.

Example magnitude_partial : magnitude_policy 4 3 2 = Py.Ok (1 / 6).
Proof.
  unfold magnitude_policy, partial_overlap, Rabs.
  decide_order; f_equal; lra.
Qed.

Example magnitude_zero_sun_radius :
  magnitude_policy 1 0 2 = Py.Raise Py.ZeroDivisionError.
Proof.
  unfold magnitude_policy, Py.truediv, Rabs. decide_order; reflexivity.
Qed.

Example angular_radius_inside_the_body :
  angular_radius RADIUS_SUN_KM 1000 = Py.Raise Py.ValueError.
Proof.
  unfold angular_radius, Py.asin, RADIUS_SUN_KM. decide_order; reflexivity.
Qed.

Example angular_radius_zero_distance :
  angular_radius RADIUS_MOON_KM 0 = Py.Raise Py.ValueError.
Proof.
  unfold angular_radius. decide_order; reflexivity.
Qed.

(** When a first maximum is below the horizon and a later one is above it,
    the loop of [estimate_eclipse] goes on to the later one. *)
Example scan_events_later_maximum :
  let almanac : Skript_eclipse.Skyfield := {|
    Skript_eclipse.Time := R;
    Skript_eclipse.Observer := R * R;
    Skript_eclipse.latlon := fun lat lon => (lat, lon);
    Skript_eclipse.start_time := -180;
    Skript_eclipse.end_time := 120;
    Skript_eclipse.find_discrete := fun _ _ _ => ([0; 10], [1; 1]%Z);
    Skript_eclipse.sun_altaz_degrees := fun _ t => t - 5;
    Skript_eclipse.sun_position_km := fun _ _ => (150000000, 0, 0);
    Skript_eclipse.moon_position_km := fun _ _ => (384400, 0, 0);
    Skript_eclipse.utc_iso := fun t => "later"%string
  |} in
  fst (Skript_eclipse.estimate_eclipse (skyfield := almanac) 50 14)
  = Some "later"%string.
Proof.
  cbv zeta. unfold Skript_eclipse.estimate_eclipse. simpl.
  decide_order; reflexivity.
Qed.

End Instances.

(** ** Further facts about the magnitude *)

Section MagnitudeExtras.

Import Solar_eclipse.

Lemma cut_bounds (R_sun R_moon d : R) :
  0 < R_sun -> 0 < R_moon ->
  Rabs (R_sun - R_moon) <= cut R_sun R_moon d <= R_sun + R_moon.
Proof.
  intros Hs Hm. unfold cut, Rmax, Rmin, Rabs.
  repeat match goal with
         | |- context [Rle_dec ?a ?b] => destruct (Rle_dec a b)
         | |- context [Rcase_abs ?a] => destruct (Rcase_abs a)
         end; lra.
Qed.

Lemma cut_monotone (R_sun R_moon d1 d2 : R) :
  d1 <= d2 -> cut R_sun R_moon d1 <= cut R_sun R_moon d2.
Proof.
  intros H12. unfold cut, Rmax, Rmin.
  repeat match goal with
         | |- context [Rle_dec ?a ?b] => destruct (Rle_dec a b)
         | H : context [Rle_dec ?a ?b] |- _ => destruct (Rle_dec a b)
         end; lra.
Qed.

Lemma div_sun_diameter_le (R_sun x y : R) :
  0 < R_sun -> x <= y -> x / (2 * R_sun) <= y / (2 * R_sun).
Proof.
  intros Hs Hxy. unfold Rdiv. apply Rmult_le_compat_r; [|exact Hxy].
  apply Rlt_le, Rinv_0_lt_compat. lra.
Qed.

Lemma div_sun_diameter_lt (R_sun x y : R) :
  0 < R_sun -> x < y -> x / (2 * R_sun) < y / (2 * R_sun).
Proof.
  intros Hs Hxy. unfold Rdiv. apply Rmult_lt_compat_r; [|exact Hxy].
  apply Rinv_0_lt_compat. lra.
Qed.

(** X1.  For positive radii the magnitude is non-increasing in the
    separation over the whole line, across the three branches. *)
Theorem magnitude_policy_non_increasing (R_sun R_moon d1 d2 : R) :
  0 < R_sun -> 0 < R_moon -> d1 <= d2 ->
  exists m1 m2,
    magnitude_policy d1 R_sun R_moon = Py.Ok m1 /\
    magnitude_policy d2 R_sun R_moon = Py.Ok m2 /\
    m2 <= m1.
Proof.
  intros Hs Hm H12. rewrite !magnitude_policy_cut by assumption.
  do 2 eexists. split; [reflexivity|]. split; [reflexivity|].
  apply div_sun_diameter_le; [assumption|].
  pose proof (cut_monotone R_sun R_moon d1 d2 H12). lra.
Qed.

(** X2.  For positive radii the magnitude is positive exactly when the
    separation is below the sum of the radii. *)
Theorem magnitude_positive_iff_contact (R_sun R_moon d : R) :
  0 < R_sun -> 0 < R_moon ->
  exists magnitude,
    magnitude_policy d R_sun R_moon = Py.Ok magnitude /\
    (0 < magnitude <-> d < R_sun + R_moon).
Proof.
  intros Hs Hm. unfold magnitude_policy, partial_overlap.
  assert (Habs : Rabs (R_sun - R_moon) < R_sun + R_moon).
  { unfold Rabs. destruct (Rcase_abs (R_sun - R_moon)); lra. }
  destruct (Rge_dec d (R_sun + R_moon)) as [Hge|Hlt].
  - exists 0. split; [reflexivity|]. split; intros; lra.
  - apply Rnot_ge_lt in Hlt.
    destruct (Rle_dec d (Rabs (R_sun - R_moon))) as [Hle|Hgt].
    + rewrite truediv_ok by lra. eexists. split; [reflexivity|].
      split; [intros _; exact Hlt|]. intros _.
      apply Rdiv_lt_0_compat; [|lra].
      unfold Rmin. destruct (Rle_dec R_moon R_sun); lra.
    + eexists. split; [reflexivity|].
      split; [intros _; exact Hlt|]. intros _.
      apply Rdiv_lt_0_compat; lra.
Qed.

Lemma magnitude_policy_maximal (R_sun R_moon d : R) :
  0 < R_sun -> 0 < R_moon ->
  exists magnitude,
    magnitude_policy d R_sun R_moon = Py.Ok magnitude /\
    magnitude <= Rmin R_moon R_sun / R_sun /\
    (magnitude = Rmin R_moon R_sun / R_sun <-> d <= Rabs (R_sun - R_moon)).
Proof.
  intros Hs Hm.
  assert (Hmin : Rmin R_moon R_sun / R_sun
                 = (R_moon + R_sun - Rabs (R_sun - R_moon)) / (2 * R_sun)).
  { unfold Rabs, Rmin.
    destruct (Rcase_abs (R_sun - R_moon)), (Rle_dec R_moon R_sun);
      try lra; field; lra. }
  assert (Habs : Rabs (R_sun - R_moon) < R_sun + R_moon).
  { unfold Rabs. destruct (Rcase_abs (R_sun - R_moon)); lra. }
  rewrite Hmin. unfold magnitude_policy, partial_overlap.
  destruct (Rge_dec d (R_sun + R_moon)) as [Hge|Hlt].
  - exists 0.
    assert (H0 : 0 < (R_moon + R_sun - Rabs (R_sun - R_moon)) / (2 * R_sun))
      by (apply Rdiv_lt_0_compat; lra).
    split; [reflexivity|]. split; [lra|]. split; intros; lra.
  - apply Rnot_ge_lt in Hlt.
    destruct (Rle_dec d (Rabs (R_sun - R_moon))) as [Hle|Hgt].
    + rewrite truediv_ok by lra. rewrite Hmin. eexists.
      split; [reflexivity|]. split; [lra|]. split; intros; [exact Hle | reflexivity].
    + apply Rnot_le_lt in Hgt. eexists. split; [reflexivity|].
      assert (Hlt' : (R_moon + R_sun - d) / (2 * R_sun)
                     < (R_moon + R_sun - Rabs (R_sun - R_moon)) / (2 * R_sun))
        by (apply div_sun_diameter_lt; lra).
      split; [lra|]. split; intros; lra.
Qed.

(** X3.  For positive radii the magnitude never exceeds
    [min(R_moon, R_sun) / R_sun], and it reaches that value exactly when
    one disk lies within the other, [d <= |R_sun - R_moon|]. *)
Theorem magnitude_maximal_iff_contained (R_sun R_moon d : R) :
  0 < R_sun -> 0 < R_moon ->
  exists magnitude,
    magnitude_policy d R_sun R_moon = Py.Ok magnitude /\
    magnitude <= Rmin R_moon R_sun / R_sun /\
    (magnitude = Rmin R_moon R_sun / R_sun <-> d <= Rabs (R_sun - R_moon)).
Proof.
  exact (magnitude_policy_maximal R_sun R_moon d).
Qed.

(** X4.  For positive radii the magnitude is 1 exactly when the Moon's disk
    is at least as large as the Sun's and covers it,
    [R_sun <= R_moon] and [d <= R_moon - R_sun]. *)
Theorem magnitude_one_iff_total (R_sun R_moon d : R) :
  0 < R_sun -> 0 < R_moon ->
  exists magnitude,
    magnitude_policy d R_sun R_moon = Py.Ok magnitude /\
    (magnitude = 1 <-> R_sun <= R_moon /\ d <= R_moon - R_sun).
Proof.
  intros Hs Hm.
  destruct (magnitude_policy_maximal R_sun R_moon d Hs Hm)
    as (magnitude & Hpol & Hle & Hiff).
  exists magnitude. split; [exact Hpol|].
  assert (Hratio : Rmin R_moon R_sun / R_sun = 1 <-> R_sun <= R_moon).
  { unfold Rmin. destruct (Rle_dec R_moon R_sun) as [Hms|Hsm].
    - split.
      + intros H1. apply (f_equal (fun x => x * R_sun)) in H1.
        unfold Rdiv in H1. rewrite Rmult_assoc, Rinv_l in H1 by lra. lra.
      + intros H1. replace R_moon with R_sun by lra. field. lra.
    - split; [intros _; lra|]. intros _. field. lra. }
  assert (Hcap : Rmin R_moon R_sun / R_sun <= 1).
  { unfold Rmin. destruct (Rle_dec R_moon R_sun).
    - apply Rmult_le_reg_r with R_sun; [lra|].
      unfold Rdiv. rewrite Rmult_assoc, Rinv_l by lra. lra.
    - right. field. lra. }
  split.
  - intros H1. assert (Hmax : Rmin R_moon R_sun / R_sun = 1) by lra.
    assert (Hsm : R_sun <= R_moon) by (apply Hratio; exact Hmax).
    split; [exact Hsm|].
    assert (Hd : d <= Rabs (R_sun - R_moon)) by (apply Hiff; lra).
    unfold Rabs in Hd. destruct (Rcase_abs (R_sun - R_moon)); lra.
  - intros [Hsm Hd].
    assert (Hmax : Rmin R_moon R_sun / R_sun = 1) by (apply Hratio; exact Hsm).
    rewrite <- Hmax. apply Hiff.
    unfold Rabs. destruct (Rcase_abs (R_sun - R_moon)); lra.
Qed.

End MagnitudeExtras.

(** ** How [eclipse] fails *)

Section EclipseFailures.

Import Solar_eclipse.

Lemma asin_zero_only_at_zero (x : R) : -1 <= x <= 1 -> Ratan.asin x = 0 -> x = 0.
Proof.
  intros Hx H0. rewrite <- (sin_asin x Hx), H0. apply sin_0.
Qed.

(** An angular radius that is computed is that of a non-zero quotient, so
    it is not 0; the only exception is [ValueError]. *)
Lemma angular_radius_cases (radius_km distance : R) :
  radius_km <> 0 ->
  angular_radius radius_km distance = Py.Raise Py.ValueError \/
  exists r, angular_radius radius_km distance = Py.Ok r /\ r <> 0.
Proof.
  intros Hr. unfold angular_radius, Py.asin.
  destruct (Req_dec_T distance 0) as [|Hd]; [left; reflexivity|].
  destruct (Rlt_dec (radius_km / distance) (-1)); [left; reflexivity|].
  destruct (Rlt_dec 1 (radius_km / distance)); [left; reflexivity|].
  right. eexists. split; [reflexivity|].
  intros H0. apply asin_zero_only_at_zero in H0; [|lra].
  unfold Rdiv in H0. apply Rmult_integral in H0.
  destruct H0 as [H0|H0]; [contradiction|].
  exact (Rinv_neq_0_compat distance Hd H0).
Qed.

Lemma magnitude_policy_total (d R_sun R_moon : R) :
  R_sun <> 0 -> exists magnitude, magnitude_policy d R_sun R_moon = Py.Ok magnitude.
Proof.
  intros Hs. unfold magnitude_policy.
  destruct (Rge_dec d (R_sun + R_moon)); [eexists; reflexivity|].
  destruct (Rle_dec d (Rabs (R_sun - R_moon))); [|eexists; reflexivity].
  rewrite truediv_ok by assumption. eexists; reflexivity.
Qed.

Context {skyfield : Skyfield}.

Lemma magnitude_at_cases (location : Location) (sun moon : Body) (t_max : Time) :
  magnitude_at location sun moon t_max = Py.Raise Py.ValueError \/
  exists magnitude, magnitude_at location sun moon t_max = Py.Ok magnitude.
Proof.
  unfold magnitude_at.
  destruct (angular_radius_cases RADIUS_SUN_KM
              (distance_km (apparent location t_max sun)))
    as [Hs|(R_sun & Hs & Hs0)]; [unfold RADIUS_SUN_KM; lra | |];
    rewrite Hs; simpl; [left; reflexivity|].
  destruct (angular_radius_cases RADIUS_MOON_KM
              (distance_km (apparent location t_max moon)))
    as [Hm|(R_moon & Hm & _)]; [unfold RADIUS_MOON_KM; lra | |];
    rewrite Hm; simpl; [left; reflexivity|].
  right. apply magnitude_policy_total. exact Hs0.
Qed.

(** X5.  Whatever the window and the ephemeris, the only exception
    [eclipse] raises is [ValueError]: the index it takes is in range and
    the Sun's angular radius it divides by is not 0. *)
Theorem eclipse_raises_only_value_error (minutes : list R) (times : list Time)
  (location : Location) (sun moon : Body) :
  eclipse minutes times location sun moon = Py.Raise Py.ValueError \/
  exists t_max_utc magnitude,
    eclipse minutes times location sun moon = Py.Ok (t_max_utc, magnitude).
Proof.
  destruct times as [|t times'].
  - left. reflexivity.
  - destruct (eclipse_unfold minutes (t :: times') location sun moon)
      as (k & t_max & _ & _ & _ & Heq); [discriminate|].
    rewrite Heq.
    destruct (magnitude_at_cases location sun moon t_max) as [Hr|[m Hm]].
    + left. rewrite Hr. reflexivity.
    + right. rewrite Hm. do 2 eexists. reflexivity.
Qed.

End EclipseFailures.

(** ** Facts about [round] *)

Section RoundFacts.

Lemma round_half_even_cases (y : R) :
  let f := Int_part y in
  IZR f <= y < IZR f + 1 /\
  ((Py.round_half_even y = f /\ y - IZR f <= 1 / 2) \/
   (Py.round_half_even y = (f + 1)%Z /\ 1 / 2 <= y - IZR f)).
Proof.
  intros f. destruct (base_Int_part y) as [Hlo Hhi]. fold f in Hlo, Hhi.
  split; [lra|].
  unfold Py.round_half_even, frac_part. fold f.
  destruct (Rlt_dec (y - IZR f) (1 / 2)); [left; split; [reflexivity | lra]|].
  destruct (Rlt_dec (1 / 2) (y - IZR f)); [right; split; [reflexivity | lra]|].
  destruct (Z.even f); [left | right]; split; try reflexivity; lra.
Qed.

Lemma round_half_even_between (a b : Z) (y : R) :
  IZR a <= y <= IZR b -> (a <= Py.round_half_even y <= b)%Z.
Proof.
  intros [Ha Hb].
  destruct (round_half_even_cases y) as [[Hlo Hhi] Hcase].
  assert (Hfa : (a <= Int_part y)%Z).
  { apply Z.lt_succ_r, lt_IZR. rewrite succ_IZR. lra. }
  destruct Hcase as [[-> _]|[-> Hhalf]].
  - split; [exact Hfa|]. apply le_IZR. lra.
  - split; [lia|]. apply Z.le_succ_l, lt_IZR. lra.
Qed.

Lemma round_half_even_near (y : R) :
  Rabs (IZR (Py.round_half_even y) - y) <= 1 / 2.
Proof.
  destruct (round_half_even_cases y) as [[Hlo Hhi] [[-> H]|[-> H]]];
    [|rewrite plus_IZR]; unfold Rabs;
    match goal with |- context [Rcase_abs ?a] => destruct (Rcase_abs a) end;
    lra.
Qed.

Lemma pow10_pos (n : nat) : 0 < 10 ^ n.
Proof.
  apply pow_lt. lra.
Qed.

(** [round(x, ndigits)] of a value in [[0, 1]] is [k / 10 ^ ndigits] for an
    integer [k] from 0 to [10 ^ ndigits], so it is in [[0, 1]] again. *)
Lemma round_unit_interval (x : R) (ndigits : nat) :
  0 <= x <= 1 ->
  exists k : Z,
    Py.round x ndigits = IZR k / 10 ^ ndigits /\
    (0 <= k <= 10 ^ Z.of_nat ndigits)%Z /\
    0 <= Py.round x ndigits <= 1.
Proof.
  intros [H0 H1]. pose proof (pow10_pos ndigits) as Hp.
  assert (Hpow : IZR (10 ^ Z.of_nat ndigits) = 10 ^ ndigits).
  { rewrite <- pow_IZR. reflexivity. }
  assert (Hk : (0 <= Py.round_half_even (x * 10 ^ ndigits)
                <= 10 ^ Z.of_nat ndigits)%Z).
  { apply round_half_even_between. rewrite Hpow. nra. }
  exists (Py.round_half_even (x * 10 ^ ndigits)).
  split; [reflexivity|]. split; [exact Hk|].
  destruct Hk as [Hk0 Hk1]. apply IZR_le in Hk0, Hk1. rewrite Hpow in Hk1.
  unfold Py.round. split.
  - apply Rmult_le_reg_r with (10 ^ ndigits); [exact Hp|].
    unfold Rdiv. rewrite Rmult_assoc, Rinv_l by lra. lra.
  - apply Rmult_le_reg_r with (10 ^ ndigits); [exact Hp|].
    unfold Rdiv. rewrite Rmult_assoc, Rinv_l by lra. lra.
Qed.

Lemma round_near (x : R) (ndigits : nat) :
  Rabs (Py.round x ndigits - x) <= 1 / 2 / 10 ^ ndigits.
Proof.
  pose proof (pow10_pos ndigits) as Hp.
  pose proof (round_half_even_near (x * 10 ^ ndigits)) as Hn.
  unfold Py.round.
  replace (IZR (Py.round_half_even (x * 10 ^ ndigits)) / 10 ^ ndigits - x)
    with ((IZR (Py.round_half_even (x * 10 ^ ndigits)) - x * 10 ^ ndigits)
          * / 10 ^ ndigits) by (field; lra).
  rewrite Rabs_mult, (Rabs_right (/ 10 ^ ndigits))
    by (apply Rle_ge, Rlt_le, Rinv_0_lt_compat; exact Hp).
  unfold Rdiv. apply Rmult_le_compat_r; [|exact Hn].
  apply Rlt_le, Rinv_0_lt_compat. exact Hp.
Qed.

End RoundFacts.

(** ** The loop over the rows *)

Section BatchFacts.

Import Solar_eclipse.

Context {skyfield : Skyfield}.

Lemma eclipse_returns (minutes : list R) (times : list Time)
  (location : Location) (sun moon : Body) :
  times <> [] ->
  (forall t, In t times ->
     RADIUS_SUN_KM < distance_km (apparent location t sun) /\
     RADIUS_MOON_KM < distance_km (apparent location t moon)) ->
  exists t_max_utc magnitude,
    eclipse minutes times location sun moon = Py.Ok (t_max_utc, magnitude) /\
    0 <= magnitude <= 1.
Proof.
  intros Hne Hdist.
  destruct (eclipse_unfold minutes times location sun moon Hne)
    as (k & t_max & Hk & _ & _ & Heq).
  destruct (Hdist t_max (nth_error_In _ _ Hk)) as [Hsun Hmoon].
  unfold RADIUS_SUN_KM, RADIUS_MOON_KM in Hsun, Hmoon.
  destruct (angular_radius_ok RADIUS_SUN_KM
              (distance_km (apparent location t_max sun))) as [Hs Hsp];
    [unfold RADIUS_SUN_KM; lra | unfold RADIUS_SUN_KM; lra |].
  destruct (angular_radius_ok RADIUS_MOON_KM
              (distance_km (apparent location t_max moon))) as [Hm Hmp];
    [unfold RADIUS_MOON_KM; lra | unfold RADIUS_MOON_KM; lra |].
  destruct (magnitude_policy_unit_interval
              (radians (separation_from (apparent location t_max sun)
                                        (apparent location t_max moon)))
              _ _ Hsp Hmp) as (magnitude & Hpol & Hrange).
  exists (utc_datetime t_max), magnitude. split; [|exact Hrange].
  rewrite Heq, (magnitude_at_ok _ _ _ _ _ _ Hs Hm), Hpol. reflexivity.
Qed.

Lemma read_rows_inv (minutes : list R) (times : list Time) (reader : list (R * R)) :
  forall rows out,
    read_rows minutes times reader rows = Py.Ok out ->
    exists new, out = rows ++ new /\ Forall2 (row_of minutes times) reader new.
Proof.
  induction reader as [|[lon lat] reader IH]; intros rows out Hout; simpl in Hout.
  - injection Hout as <-. exists []. rewrite app_nil_r. split; constructor.
  - destruct (eclipse minutes times (topos lat lon) eph_sun eph_moon)
      as [[time_max magnitude]|e] eqn:He; simpl in Hout; [|discriminate].
    destruct (IH _ _ Hout) as (new & -> & Hnew).
    exists ((lat, lon, time_max, Py.round magnitude 4) :: new). split.
    + rewrite <- app_assoc. reflexivity.
    + constructor; [|exact Hnew]. simpl. exists time_max, magnitude. auto.
Qed.

Lemma read_rows_intro (minutes : list R) (times : list Time) (reader : list (R * R)) :
  forall rows new,
    Forall2 (row_of minutes times) reader new ->
    read_rows minutes times reader rows = Py.Ok (rows ++ new).
Proof.
  induction reader as [|[lon lat] reader IH]; intros rows new Hnew;
    inversion Hnew as [|p row reader' new' Hrow Hrest]; subst; simpl.
  - rewrite app_nil_r. reflexivity.
  - simpl in Hrow. destruct Hrow as (time_max & magnitude & He & ->).
    rewrite He. simpl. rewrite (IH _ _ Hrest), <- app_assoc. reflexivity.
Qed.

(** X6.  The loop returns rows exactly when [eclipse] returns for every
    input pair, and then it has appended, in the order of the input, one row
    per pair: its latitude, its longitude, the time [eclipse] gave and the
    magnitude rounded to 4 digits. *)
Theorem read_rows_returns_one_row_per_pair (minutes : list R) (times : list Time)
  (reader : list (R * R)) (rows out : list Row) :
  read_rows minutes times reader rows = Py.Ok out <->
  exists new, out = rows ++ new /\ Forall2 (row_of minutes times) reader new.
Proof.
  split.
  - apply read_rows_inv.
  - intros (new & -> & Hnew). apply read_rows_intro. exact Hnew.
Qed.

(** X7.  When [eclipse] raises for an input pair and returned for all the
    pairs before it, the loop ends in that exception: the rows already
    computed are not returned and the pairs after it are not looked at. *)
Theorem read_rows_stops_at_first_exception (minutes : list R) (times : list Time)
  (before after : list (R * R)) (lon lat : R) (rows : list Row) (e : Py.exn) :
  Forall (fun lonlat => exists row, row_of minutes times lonlat row) before ->
  eclipse minutes times (topos lat lon) eph_sun eph_moon = Py.Raise e ->
  read_rows minutes times (before ++ (lon, lat) :: after) rows = Py.Raise e.
Proof.
  intros Hbefore He. revert rows.
  induction Hbefore as [|[lon' lat'] before (row & Hrow) _ IH]; intros rows; simpl.
  - rewrite He. reflexivity.
  - simpl in Hrow. destruct Hrow as (time_max & magnitude & He' & _).
    rewrite He'. simpl. apply IH.
Qed.

Lemma times_not_empty : times <> [].
Proof.
  intros Hnil. apply (f_equal (@length Time)) in Hnil.
  unfold times in Hnil. rewrite length_map in Hnil.
  unfold minutes in Hnil. rewrite linspace_length in Hnil. discriminate Hnil.
Qed.

(** X8.  Over its own window of 1000 samples the script returns one row per
    input pair, with the pair's latitude and longitude in that order,
    whenever at every sample the Sun and the Moon are farther from each
    observer than their radii; every magnitude it writes is then a multiple
    of 0.0001 between 0 and 1. *)
Theorem script_returns_rows (reader : list (R * R)) :
  (forall lon lat t, In (lon, lat) reader -> In t times ->
     RADIUS_SUN_KM < distance_km (apparent (topos lat lon) t eph_sun) /\
     RADIUS_MOON_KM < distance_km (apparent (topos lat lon) t eph_moon)) ->
  exists out,
    script reader = Py.Ok out /\
    map (fun row : Row => let '(lat, lon, _, _) := row in (lon, lat)) out = reader /\
    Forall (fun row : Row =>
              exists k : Z, snd row = IZR k / 10 ^ 4 /\ (0 <= k <= 10000)%Z) out.
Proof.
  intros Hdist. unfold script.
  assert (Hnew : exists new,
             Forall2 (row_of minutes times) reader new /\
             map (fun row : Row => let '(lat, lon, _, _) := row in (lon, lat)) new
               = reader /\
             Forall (fun row : Row =>
                       exists k : Z, snd row = IZR k / 10 ^ 4 /\
                                     (0 <= k <= 10000)%Z) new).
  { induction reader as [|[lon lat] reader IH].
    - exists []. repeat split; constructor.
    - destruct IH as (new & Hrows & Hmap & Hmag).
      { intros lon' lat' t Hin. apply Hdist. right. exact Hin. }
      destruct (eclipse_returns minutes times (topos lat lon) eph_sun eph_moon
                  times_not_empty)
        as (time_max & magnitude & He & Hrange).
      { intros t Ht. apply Hdist; [left; reflexivity | exact Ht]. }
      destruct (round_unit_interval magnitude 4 Hrange) as (k & Hk & Hk01 & _).
      exists ((lat, lon, time_max, Py.round magnitude 4) :: new).
      split; [|split].
      + constructor; [|exact Hrows]. simpl. exists time_max, magnitude. auto.
      + simpl. rewrite Hmap. reflexivity.
      + constructor; [|exact Hmag]. exists k. simpl. split; [exact Hk|].
        exact Hk01. }
  destruct Hnew as (new & Hrows & Hmap & Hmag).
  exists new. split; [|split; assumption].
  apply (read_rows_intro minutes times reader [] new Hrows).
Qed.

End BatchFacts.

(** ** Further facts about [estimate_eclipse] *)

Section HorizonExtras.

Import Skript_eclipse.

Lemma norm3_nonneg (v : R * R * R) : 0 <= Np.norm3 v.
Proof.
  destruct v as [[x y] z]. apply sqrt_pos.
Qed.

(** The triangle inequality for [np.linalg.norm] of a difference. *)
Lemma norm3_sub_triangle (u v : R * R * R) :
  Np.norm3 u <= Np.norm3 v + Np.norm3 (Np.sub3 u v).
Proof.
  destruct u as [[a b] c], v as [[x y] z]. unfold Np.sub3, Np.norm3.
  set (U := a * a + b * b + c * c).
  set (V := x * x + y * y + z * z).
  set (W := (a - x) * (a - x) + (b - y) * (b - y) + (c - z) * (c - z)).
  assert (HU : 0 <= U)
    by (unfold U; repeat apply Rplus_le_le_0_compat; apply Rle_0_sqr).
  assert (HV : 0 <= V)
    by (unfold V; repeat apply Rplus_le_le_0_compat; apply Rle_0_sqr).
  assert (HW : 0 <= W)
    by (unfold W; repeat apply Rplus_le_le_0_compat; apply Rle_0_sqr).
  pose proof (sqrt_pos U) as Hu. pose proof (sqrt_pos V) as Hv.
  pose proof (sqrt_pos W) as Hw.
  pose proof (sqrt_sqrt U HU) as Hu2. pose proof (sqrt_sqrt V HV) as Hv2.
  pose proof (sqrt_sqrt W HW) as Hw2.
  set (p := (a - x) * x + (b - y) * y + (c - z) * z).
  assert (Hsum : U = V + W + 2 * p) by (unfold U, V, W, p; ring).
  assert (Hcs : p * p <= V * W).
  { unfold p, V, W.
    pose proof (Rle_0_sqr ((a - x) * y - (b - y) * x)).
    pose proof (Rle_0_sqr ((a - x) * z - (c - z) * x)).
    pose proof (Rle_0_sqr ((b - y) * z - (c - z) * y)).
    unfold Rsqr in *. nra. }
  destruct (Rle_lt_dec (sqrt U) (sqrt V + sqrt W)) as [Hle|Hgt]; [exact Hle|].
  exfalso.
  assert (Hsq : (sqrt V + sqrt W) * (sqrt V + sqrt W) < sqrt U * sqrt U)
    by (apply Rmult_le_0_lt_compat; lra).
  assert (Hp : sqrt V * sqrt W < p) by nra.
  assert (Hvw : 0 <= sqrt V * sqrt W) by (apply Rmult_le_pos; assumption).
  assert (Hpp : (sqrt V * sqrt W) * (sqrt V * sqrt W) < p * p)
    by (apply Rmult_le_0_lt_compat; lra).
  assert (Heq : (sqrt V * sqrt W) * (sqrt V * sqrt W) = V * W).
  { transitivity ((sqrt V * sqrt V) * (sqrt W * sqrt W)); [ring|].
    rewrite Hv2, Hw2. reflexivity. }
  lra.
Qed.

Lemma round_zero (ndigits : nat) : Py.round 0 ndigits = 0.
Proof.
  unfold Py.round. rewrite Rmult_0_l.
  assert (H : (0 <= Py.round_half_even 0 <= 0)%Z)
    by (apply round_half_even_between; lra).
  replace (Py.round_half_even 0) with 0%Z by lia.
  unfold Rdiv. apply Rmult_0_l.
Qed.

Context {skyfield : Skyfield}.

(** The value line 70 gives to [mag] at instant [ti]. *)
Let proxy (observer : Observer) (ti : Time) : R :=
  Rmax 0 (1 - Np.norm3 (Np.sub3 (sun_position_km observer ti)
                                (moon_position_km observer ti)) / 10000).

Lemma proxy_unit_interval (observer : Observer) (ti : Time) :
  0 <= proxy observer ti <= 1.
Proof.
  unfold proxy.
  pose proof (norm3_nonneg (Np.sub3 (sun_position_km observer ti)
                                    (moon_position_km observer ti))) as Hn.
  unfold Rmax.
  match goal with |- context [Rle_dec ?a ?b] => destruct (Rle_dec a b) end; lra.
Qed.

Lemma scan_events_first_visible (observer : Observer)
  (before after : list (Time * Z)) (ti : Time) :
  Forall (fun te => snd te = 1%Z -> sun_altaz_degrees observer (fst te) <= 0)
         before ->
  sun_altaz_degrees observer ti > 0 ->
  scan_events observer (before ++ (ti, 1%Z) :: after)
  = (Some (utc_iso ti), Py.round (proxy observer ti) 3).
Proof.
  intros Hbefore Hup.
  induction Hbefore as [|[t e] before Hlow _ IH]; simpl.
  - destruct (Rgt_dec (sun_altaz_degrees observer ti) 0); [reflexivity|lra].
  - destruct (Z.eqb_spec e 1) as [->|_]; [|exact IH].
    destruct (Rgt_dec (sun_altaz_degrees observer t) 0) as [Hgt|_];
      [|exact IH].
    specialize (Hlow eq_refl). simpl in Hlow. lra.
Qed.

Lemma scan_events_shape (observer : Observer) (zipped : list (Time * Z)) :
  scan_events observer zipped = (None, 0) \/
  exists ti, In (ti, 1%Z) zipped /\ sun_altaz_degrees observer ti > 0 /\
             scan_events observer zipped
             = (Some (utc_iso ti), Py.round (proxy observer ti) 3).
Proof.
  induction zipped as [|[t e] rest IH]; simpl.
  - left. reflexivity.
  - assert (Hrest :
        scan_events observer rest = (None, 0) \/
        exists ti, (t, e) = (ti, 1%Z) \/ In (ti, 1%Z) rest /\
                   sun_altaz_degrees observer ti > 0 /\
                   scan_events observer rest
                   = (Some (utc_iso ti), Py.round (proxy observer ti) 3)).
    { destruct IH as [IH|(ti & Hin & Hup & Heq)]; [left; exact IH|].
      right. exists ti. right. auto. }
    destruct (Z.eqb_spec e 1) as [->|_].
    + destruct (Rgt_dec (sun_altaz_degrees observer t) 0) as [Hgt|_].
      * right. exists t. split; [left; reflexivity|]. split; [exact Hgt|].
        reflexivity.
      * destruct IH as [IH|(ti & Hin & Hup & Heq)]; [left; exact IH|].
        right. exists ti. auto.
    + destruct IH as [IH|(ti & Hin & Hup & Heq)]; [left; exact IH|].
      right. exists ti. auto.
Qed.

Lemma estimate_eclipse_scan (lat lon : R) :
  estimate_eclipse lat lon
  = scan_events (latlon lat lon)
      (combine (fst (find_discrete start_time end_time (latlon lat lon)))
               (snd (find_discrete start_time end_time (latlon lat lon)))).
Proof.
  unfold estimate_eclipse.
  destruct (find_discrete start_time end_time (latlon lat lon))
    as [times events]. simpl.
  destruct events as [|e events]; simpl; [|reflexivity].
  destruct times; reflexivity.
Qed.

End HorizonExtras.

Section HorizonTheorems.

Import Skript_eclipse.

Context {skyfield : Skyfield}.

(** X9.  When the events found for the observer contain a maximum with the
    Sun above the horizon, and at every maximum before it the Sun is not
    above the horizon, [estimate_eclipse] reports the time of that maximum
    and, as magnitude, [max(0, 1 - distance / 10000)] rounded to 3 digits,
    where [distance] is the distance in km between the Sun and the Moon. *)
Theorem estimate_eclipse_first_visible_maximum (lat lon : R)
  (before after : list (Time * Z)) (ti : Time) :
  let observer := latlon lat lon in
  let found := find_discrete start_time end_time observer in
  combine (fst found) (snd found) = before ++ (ti, 1%Z) :: after ->
  Forall (fun te => snd te = 1%Z -> sun_altaz_degrees observer (fst te) <= 0)
         before ->
  sun_altaz_degrees observer ti > 0 ->
  estimate_eclipse lat lon
  = (Some (utc_iso ti),
     Py.round
       (Rmax 0 (1 - Np.norm3 (Np.sub3 (sun_position_km observer ti)
                                      (moon_position_km observer ti)) / 10000))
       3).
Proof.
  intros observer found Hzip Hbefore Hup.
  rewrite estimate_eclipse_scan. fold observer. fold found. rewrite Hzip.
  apply scan_events_first_visible; assumption.
Qed.

(** X10.  The magnitude [estimate_eclipse] reports is between 0 and 1, and
    it is 0 whenever no time is reported. *)
Theorem estimate_eclipse_magnitude_range (lat lon : R) :
  0 <= snd (estimate_eclipse lat lon) <= 1 /\
  (fst (estimate_eclipse lat lon) = None -> snd (estimate_eclipse lat lon) = 0).
Proof.
  rewrite estimate_eclipse_scan.
  destruct (scan_events_shape (latlon lat lon)
              (combine (fst (find_discrete start_time end_time (latlon lat lon)))
                       (snd (find_discrete start_time end_time (latlon lat lon)))))
    as [->|(ti & _ & _ & ->)]; simpl.
  - split; [lra | reflexivity].
  - split; [|discriminate].
    destruct (round_unit_interval _ 3 (proxy_unit_interval (latlon lat lon) ti))
      as (_ & _ & _ & Hrange).
    exact Hrange.
Qed.

(** X11.  Only the maxima count: [estimate_eclipse] gives the result of
    its loop run over the events of kind 1 alone, so events of other kinds
    change nothing and the early return on an empty event list is the
    loop's own result. *)
Theorem estimate_eclipse_ignores_other_events (lat lon : R) :
  let observer := latlon lat lon in
  let found := find_discrete start_time end_time observer in
  estimate_eclipse lat lon
  = scan_events observer
      (filter (fun te => (snd te =? 1)%Z) (combine (fst found) (snd found))).
Proof.
  intros observer found. rewrite estimate_eclipse_scan.
  fold observer. fold found.
  induction (combine (fst found) (snd found)) as [|[t e] zipped IH]; simpl.
  - reflexivity.
  - destruct (e =? 1)%Z eqn:He; simpl.
    + rewrite He.
      destruct (Rgt_dec (sun_altaz_degrees observer t) 0); [reflexivity|exact IH].
    + exact IH.
Qed.

(** X12.  When at every maximum found the Sun is at least 10000 km farther
    from the observer than the Moon, the magnitude reported is 0, also for
    a maximum with the Sun above the horizon. *)
Theorem estimate_eclipse_magnitude_zero_for_distant_sun (lat lon : R) :
  let observer := latlon lat lon in
  let found := find_discrete start_time end_time observer in
  (forall ti, In (ti, 1%Z) (combine (fst found) (snd found)) ->
     Np.norm3 (moon_position_km observer ti) + 10000
     <= Np.norm3 (sun_position_km observer ti)) ->
  snd (estimate_eclipse lat lon) = 0.
Proof.
  intros observer found Hfar. rewrite estimate_eclipse_scan.
  fold observer. fold found.
  destruct (scan_events_shape observer (combine (fst found) (snd found)))
    as [->|(ti & Hin & _ & ->)]; simpl; [reflexivity|].
  specialize (Hfar ti Hin).
  pose proof (norm3_sub_triangle (sun_position_km observer ti)
                                 (moon_position_km observer ti)) as Htri.
  rewrite Rmax_left; [apply round_zero|].
  apply Rmult_le_reg_r with 10000; [lra|].
  unfold Rdiv. rewrite Rmult_minus_distr_r, Rmult_assoc, Rinv_l by lra. lra.
Qed.

Lemma iterrows_map (df : list (R * R)) :
  forall eclipse_times eclipse_magnitudes,
    iterrows df eclipse_times eclipse_magnitudes
    = (eclipse_times
         ++ map (fun row => fst (estimate_eclipse (fst row) (snd row))) df,
       eclipse_magnitudes
         ++ map (fun row => snd (estimate_eclipse (fst row) (snd row))) df).
Proof.
  induction df as [|[lat lon] df IH]; intros eclipse_times eclipse_magnitudes;
    simpl.
  - rewrite !app_nil_r. reflexivity.
  - destruct (estimate_eclipse lat lon) as [time mag] eqn:He.
    rewrite IH, <- !app_assoc. reflexivity.
Qed.

(** X13.  The two result lists the script attaches to the frame have one
    entry per row, in the order of the rows: entry [i] of each is the time,
    respectively the magnitude, of [estimate_eclipse] at row [i]. *)
Theorem iterrows_columns_match_rows (df : list (R * R)) :
  let '(eclipse_times, eclipse_magnitudes) := iterrows df [] [] in
  length eclipse_times = length df /\
  length eclipse_magnitudes = length df /\
  forall i lat lon, nth_error df i = Some (lat, lon) ->
    nth_error eclipse_times i = Some (fst (estimate_eclipse lat lon)) /\
    nth_error eclipse_magnitudes i = Some (snd (estimate_eclipse lat lon)).
Proof.
  rewrite iterrows_map. simpl. rewrite !length_map.
  split; [reflexivity|]. split; [reflexivity|].
  intros i lat lon Hi. rewrite !nth_error_map, Hi. simpl. auto.
Qed.

End HorizonTheorems.

(** ** Facts about [decimal] *)

Section DecimalFacts.

Import Solar_eclipse.

Lemma digit_not_space (c : ascii) : Py.is_digit c = true -> Py.is_space c = false.
Proof.
  destruct c as [[] [] [] [] [] [] [] []]; vm_compute; congruence.
Qed.

Lemma digit_value_range (c : ascii) :
  Py.is_digit c = true -> (0 <= Py.digit_value c <= 9)%Z.
Proof.
  destruct c as [[] [] [] [] [] [] [] []]; vm_compute; intuition congruence.
Qed.

Lemma lstrip_digits (l : list ascii) :
  match l with c :: _ => Py.is_digit c = true | [] => True end ->
  Py.lstrip l = l.
Proof.
  destruct l as [|c l]; [reflexivity|]. intros Hc. simpl.
  rewrite (digit_not_space c Hc). reflexivity.
Qed.

Lemma strip_digits (l : list ascii) :
  forallb Py.is_digit l = true -> Py.strip l = l.
Proof.
  intros Hall. unfold Py.strip.
  assert (Hhead : forall l', forallb Py.is_digit l' = true ->
            match l' with c :: _ => Py.is_digit c = true | [] => True end).
  { intros [|c l'] H; [exact I|]. simpl in H.
    apply andb_true_iff in H. tauto. }
  rewrite (lstrip_digits l (Hhead l Hall)).
  rewrite lstrip_digits, rev_involutive; [reflexivity|].
  apply Hhead. rewrite forallb_forall in *. intros c Hc.
  apply Hall, in_rev. exact Hc.
Qed.

Lemma read_digits_all_digits (l : list ascii) :
  forall acc after_digit,
    forallb Py.is_digit l = true ->
    l <> [] \/ after_digit = true ->
    exists m : Z,
      Py.read_digits acc after_digit l
        = Some (acc * 10 ^ Z.of_nat (length l) + m)%Z /\
      (0 <= m < 10 ^ Z.of_nat (length l))%Z.
Proof.
  induction l as [|c l IH]; intros acc after_digit Hall Hne.
  - destruct Hne as [Hne| ->]; [congruence|]. exists 0%Z. simpl.
    split; [f_equal; lia | lia].
  - simpl in Hall. apply andb_true_iff in Hall. destruct Hall as [Hc Hall].
    cbn [Py.read_digits]. rewrite Hc.
    destruct (IH (10 * acc + Py.digit_value c)%Z true Hall (or_intror eq_refl))
      as (m & Hread & Hm).
    pose proof (digit_value_range c Hc) as Hd.
    exists (Py.digit_value c * 10 ^ Z.of_nat (length l) + m)%Z.
    rewrite Hread.
    replace (Z.of_nat (length (c :: l))) with (Z.succ (Z.of_nat (length l)))
      by (simpl length; lia).
    rewrite Z.pow_succ_r by lia. split; [f_equal; ring | nia].
Qed.

(** [int] of a non-empty text of digits is the number below
    [10 ** len(text)] that the digits spell. *)
Lemma int_all_digits (s : string) :
  Py.all_digits s = true -> s <> EmptyString ->
  exists m : Z,
    Py.int s = Py.Ok m /\ (0 <= m < 10 ^ Z.of_nat (String.length s))%Z.
Proof.
  intros Hall Hne. unfold Py.all_digits in Hall.
  assert (Hlen : length (list_ascii_of_string s) = String.length s).
  { clear. induction s as [|c s IH]; simpl; congruence. }
  destruct s as [|c s]; [congruence|]. clear Hne.
  destruct (read_digits_all_digits (list_ascii_of_string (String c s)) 0 false
              Hall) as (m & Hread & Hm).
  { left. discriminate. }
  rewrite Hlen in Hread, Hm. exists m. split; [|exact Hm].
  unfold Py.int. rewrite (strip_digits _ Hall).
  replace (0 * 10 ^ Z.of_nat (String.length (String c s)) + m)%Z with m
    in Hread by lia.
  simpl list_ascii_of_string in *. simpl in Hall.
  apply andb_true_iff in Hall. destruct Hall as [Hc _].
  destruct c as [[] [] [] [] [] [] [] []];
    try discriminate Hc; rewrite Hread; reflexivity.
Qed.

Lemma pow10_IZR (n : nat) : IZR (10 ^ Z.of_nat n) = 10 ^ n.
Proof.
  rewrite <- pow_IZR. reflexivity.
Qed.

Lemma fraction_range (m : Z) (n : nat) :
  (0 <= m < 10 ^ Z.of_nat n)%Z -> 0 <= IZR m / 10 ^ n < 1.
Proof.
  intros [H0 H1]. apply IZR_le in H0. apply IZR_lt in H1.
  rewrite pow10_IZR in H1. pose proof (pow10_pos n) as Hp. split.
  - apply Rmult_le_reg_r with (10 ^ n); [exact Hp|].
    unfold Rdiv. rewrite Rmult_assoc, Rinv_l by lra. lra.
  - apply Rmult_lt_reg_r with (10 ^ n); [exact Hp|].
    unfold Rdiv. rewrite Rmult_assoc, Rinv_l by lra. lra.
Qed.

End DecimalFacts.

Section DecimalTheorems.

Import Solar_eclipse.

Lemma decimal_value (row : list string) (a b : nat) (cell_a cell_b : string)
  (k m : Z) :
  nth_error row a = Some cell_a -> Py.int cell_a = Py.Ok k ->
  nth_error row b = Some cell_b -> Py.int cell_b = Py.Ok m ->
  decimal row a b
  = Py.Ok (IZR k + IZR (if (k <? 0)%Z then (m * -1)%Z else m)
                   / 10 ^ String.length cell_b).
Proof.
  intros Ha Hk Hb Hm. unfold decimal, Py.getitem.
  rewrite Ha. simpl. rewrite Hk. simpl. rewrite Hb. simpl. rewrite Hm.
  reflexivity.
Qed.



(** X16.  The sign is taken from the integer read, not from the text: with
    the integer cell ["-0"] and a decimal cell of digits, [decimal] returns
    the non-negative value [m / 10 ** n], as it does for ["0"]. *)
Theorem decimal_minus_zero_is_non_negative (row : list string) (a b : nat)
  (cell_b : string) :
  nth_error row a = Some "-0"%string ->
  nth_error row b = Some cell_b ->
  Py.all_digits cell_b = true -> cell_b <> EmptyString ->
  exists m : Z,
    Py.int cell_b = Py.Ok m /\
    decimal row a b = Py.Ok (0 + IZR m / 10 ^ String.length cell_b) /\
    0 <= 0 + IZR m / 10 ^ String.length cell_b < 1.
Proof.
  intros Ha Hb Hdigits Hne.
  destruct (int_all_digits cell_b Hdigits Hne) as (m & Hm & Hrange).
  exists m. split; [exact Hm|].
  rewrite (decimal_value row a b "-0" cell_b 0 m Ha eq_refl Hb Hm).
  split; [reflexivity|].
  pose proof (fraction_range m (String.length cell_b) Hrange). simpl. lra.
Qed.

End DecimalTheorems.

(** ** Closed instances of the further facts *)

Section ExtraInstances.

Import Solar_eclipse.

Lemma Rabs_3_2 : Rabs (3 - 2) = 1.
Proof.
  unfold Rabs. destruct (Rcase_abs (3 - 2)); lra.
Qed.

(** X1 at radii 3 and 2, from separation 0 (containment) to 6 (no
    contact). *)
Lemma magnitude_policy_non_increasing_witness :
  exists m1 m2,
    magnitude_policy 0 3 2 = Py.Ok m1 /\
    magnitude_policy 6 3 2 = Py.Ok m2 /\
    m2 <= m1.
Proof.
  apply (magnitude_policy_non_increasing 3 2 0 6); lra.
Defined.

(** X2 at radii 3 and 2, separation 4. *)
Lemma magnitude_positive_iff_contact_witness :
  exists magnitude,
    magnitude_policy 4 3 2 = Py.Ok magnitude /\ 0 < magnitude.
Proof.
  destruct (magnitude_positive_iff_contact 3 2 4) as (magnitude & Hok & Hiff);
    [lra | lra |].
  exists magnitude. split; [exact Hok|]. apply Hiff. lra.
Defined.

(** X3 at radii 3 and 2, separation 1/2: the Moon's disk inside the Sun's. *)
Lemma magnitude_maximal_iff_contained_witness :
  exists magnitude,
    magnitude_policy (1 / 2) 3 2 = Py.Ok magnitude /\
    magnitude = Rmin 2 3 / 3.
Proof.
  destruct (magnitude_maximal_iff_contained 3 2 (1 / 2))
    as (magnitude & Hok & _ & Hiff); [lra | lra |].
  exists magnitude. split; [exact Hok|]. apply Hiff. rewrite Rabs_3_2. lra.
Defined.

(** X4 at Sun radius 2, Moon radius 3, separation 1/2: a total eclipse. *)
Lemma magnitude_one_iff_total_witness :
  exists magnitude,
    magnitude_policy (1 / 2) 2 3 = Py.Ok magnitude /\ magnitude = 1.
Proof.
  destruct (magnitude_one_iff_total 2 3 (1 / 2))
    as (magnitude & Hok & Hiff); [lra | lra |].
  exists magnitude. split; [exact Hok|]. apply Hiff. lra.
Defined.

Lemma stub_hole_eclipse_returns :
  exists row,
    row_of (skyfield := stub_ephemeris_hole) [] [-1; 0; 1] (14, 50) row.
Proof.
  destruct (@eclipse_returns stub_ephemeris_hole [] [-1; 0; 1] (50, 14)
              true false) as (time_max & magnitude & He & _).
  - discriminate.
  - intros t _. unfold RADIUS_SUN_KM, RADIUS_MOON_KM. simpl.
    destruct (Req_dec_T 50 0); lra.
  - eexists. simpl. exists time_max, magnitude. split; [exact He | reflexivity].
Qed.

Lemma stub_hole_eclipse_raises :
  eclipse (skyfield := stub_ephemeris_hole) [] [-1; 0; 1] (0, 17) true false
  = Py.Raise Py.ValueError.
Proof.
  destruct (@eclipse_unfold stub_ephemeris_hole [] [-1; 0; 1] (0, 17)
              true false) as (k & t_max & _ & _ & _ & Heq); [discriminate|].
  rewrite Heq. unfold magnitude_at. simpl.
  destruct stub_angular_radii as (Hs & _). rewrite Hs. simpl.
  unfold angular_radius.
  destruct (Req_dec_T 0 0) as [_|Hne]; [|lra].
  destruct (Req_dec_T 0 0) as [_|Hne]; [reflexivity|lra].
Qed.

(** X7 on the ephemeris with a hole: the second of three observers is on
    the equator, where [eclipse] raises. *)
Lemma read_rows_stops_at_first_exception_witness :
  read_rows (skyfield := stub_ephemeris_hole) [] [-1; 0; 1]
    [(14, 50); (17, 0); (16, 49)] []
  = Py.Raise Py.ValueError.
Proof.
  apply (@read_rows_stops_at_first_exception stub_ephemeris_hole [] [-1; 0; 1]
           [(14, 50)] [(16, 49)] 17 0 [] Py.ValueError).
  - constructor; [exact stub_hole_eclipse_returns | constructor].
  - exact stub_hole_eclipse_raises.
Defined.

(** X8 on the stub ephemeris, for two observers. *)
Lemma script_returns_rows_witness :
  exists out,
    script (skyfield := stub_ephemeris) [(14, 50); (17, 49)] = Py.Ok out /\
    map (fun row : Row (skyfield := stub_ephemeris) =>
           let '(lat, lon, _, _) := row in (lon, lat)) out
      = [(14, 50); (17, 49)].
Proof.
  destruct (@script_returns_rows stub_ephemeris [(14, 50); (17, 49)])
    as (out & Hok & Hmap & _).
  - intros lon lat t _ _. unfold RADIUS_SUN_KM, RADIUS_MOON_KM. simpl. lra.
  - exists out. split; [exact Hok | exact Hmap].
Defined.



(** X16 on the row ["-0"; "5"]. *)
Lemma decimal_minus_zero_is_non_negative_witness :
  exists m : Z,
    Py.int "5" = Py.Ok m /\
    decimal ["-0"; "5"]%string 0 1 = Py.Ok (0 + IZR m / 10 ^ 1).
Proof.
  destruct (decimal_minus_zero_is_non_negative ["-0"; "5"]%string 0 1 "5")
    as (m & Hm & Hval & _);
    try reflexivity; try discriminate.
  exists m. split; [exact Hm | exact Hval].
Defined.

End ExtraInstances.

Section ExtraHorizonInstances.

Import Skript_eclipse.

(** X9 on the almanac with two maxima: the first is below the horizon, the
    time reported is that of the second. *)
Lemma estimate_eclipse_first_visible_maximum_witness :
  fst (estimate_eclipse (skyfield := stub_almanac_visible) 50 14)
  = Some "2026-08-12T18:10:00Z"%string.
Proof.
  rewrite (@estimate_eclipse_first_visible_maximum stub_almanac_visible 50 14
             [(-50, 0%Z); (0, 1%Z)] [] 10).
  - simpl. destruct (Req_dec_T 10 10); [reflexivity | lra].
  - reflexivity.
  - constructor; [simpl; discriminate|].
    constructor; [simpl; intros _; lra | constructor].
  - simpl. lra.
Defined.

(** X12 on the same almanac: the Sun is 1.5e8 km away and the Moon
    384400 km, and the magnitude of the visible maximum is 0. *)
Lemma estimate_eclipse_magnitude_zero_for_distant_sun_witness :
  snd (estimate_eclipse (skyfield := stub_almanac_visible) 50 14) = 0.
Proof.
  apply (@estimate_eclipse_magnitude_zero_for_distant_sun stub_almanac_visible).
  intros ti _. simpl.
  replace (384400 * 384400 + 0 * 0 + 0 * 0) with (384400 * 384400) by ring.
  replace (150000000 * 150000000 + 0 * 0 + 0 * 0)
    with (150000000 * 150000000) by ring.
  rewrite !sqrt_square by lra. lra.
Defined.

End ExtraHorizonInstances.
